(** * FreshMac pipeline: resolver.py and enrich.py

    A shallow embedding of the two batch stages of the pipeline
    ([src/pipeline/resolver.py] and [src/pipeline/enrich.py]) and the
    properties their specification states about them.

    Data model.
    - In the two stages a Python [str] is a [string]; each [ascii] stands
      for one code point in the range U+0000..U+00FF, and [str.lower],
      [str.isspace] and the ordering of strings are the ones Python has on
      that range.  [normalize_name] is also given on strings of arbitrary
      code points ([Unicode]), with [str.lower] as CPython computes it;
      the two agree on U+0000..U+00FF.
    - A Python [dict] with string keys is a [gmap string _], a Python [set]
      of strings is a [gset string].
    - A JSON record of the hand-off file (an item of a bucket) is a dict
      whose fields hold strings; a field may be absent and further fields
      may be present.  The hand-off document itself is a dict from bucket
      names to lists of records.
    - Something that may raise (a subprocess call) or may be absent (a
      path) is an [option]. *)

From Stdlib Require Import Ascii String NArith.
From stdpp Require Import base decidable option list sorting gmap strings.

Open Scope string_scope.
Open Scope list_scope.

(** A record of a bucket and the document that holds the buckets. *)
Abbreviation record := (gmap string string).
Abbreviation document := (gmap string (list (gmap string string))).

(** ** Python strings *)

Module PyStr.

(** [c.lower()] for one code point below U+0100: the letters A-Z and
    U+00C0..U+00DE, the multiplication sign U+00D7 apart, move up by 32. *)
Definition lower_char (c : ascii) : ascii :=
  let n := N_of_ascii c in
  if ((65 <=? n) && (n <=? 90)
      || (192 <=? n) && (n <=? 222) && negb (n =? 215))%N
  then ascii_of_N (n + 32)
  else c.

Fixpoint map_chars (f : ascii → ascii) (s : string) : string :=
  match s with
  | EmptyString => EmptyString
  | String c s' => String (f c) (map_chars f s')
  end.

(** [s.lower()] *)
Definition lower (s : string) : string := map_chars lower_char s.

(** [s.replace(old, new)] where [old] and [new] are single characters. *)
Definition replace (old new : ascii) (s : string) : string :=
  map_chars (λ c, if Ascii.eqb c old then new else c) s.

(** [c.isspace()]: U+0009..U+000D, U+001C..U+0020, U+0085, U+00A0. *)
Definition isspace (c : ascii) : bool :=
  let n := N_of_ascii c in
  ((9 <=? n) && (n <=? 13) || (28 <=? n) && (n <=? 32)
   || (n =? 133) || (n =? 160))%N.

Fixpoint lstrip (s : string) : string :=
  match s with
  | EmptyString => EmptyString
  | String c s' => if isspace c then lstrip s' else s
  end.

Fixpoint rstrip (s : string) : string :=
  match s with
  | EmptyString => EmptyString
  | String c s' =>
      match rstrip s' with
      | EmptyString => if isspace c then EmptyString else String c EmptyString
      | r => String c r
      end
  end.

(** [s.strip()] *)
Definition strip (s : string) : string := rstrip (lstrip s).

(** Truth value of a string: [if s]. *)
Definition truthy (s : string) : bool :=
  match s with EmptyString => false | String _ _ => true end.

(** [s.split(sep)] for a single-character separator. *)
Fixpoint split (sep : ascii) (s : string) : list string :=
  match s with
  | EmptyString => [EmptyString]
  | String c s' =>
      if Ascii.eqb c sep then EmptyString :: split sep s'
      else match split sep s' with
           | h :: t => String c h :: t
           | [] => [String c EmptyString]
           end
  end.

(** [a < b] on strings: lexicographic on code points. *)
Definition lt (a b : string) : bool := String.ltb a b.

(** [a <= b] as a proposition: [b < a] is false. *)
Definition le (a b : string) : Prop := lt b a = false.

End PyStr.

(** ** Python dicts *)

Module PyDict.

(** [d.get(k, dflt)] *)
Definition get {V : Type} (d : gmap string V) (k : string) (dflt : V) : V :=
  default dflt (d !! k).

End PyDict.

(** ** The builtin [sorted(l, key=...)]

    [sorted] is a stable sort that compares keys with [<] only.  It is
    embedded as the insertion sort that puts an element before the first
    element of the sorted rest whose key is not smaller than its own; the
    theorems below show that the result is the stable sorted permutation
    of the input, which is what any stable sort returns. *)

Module PyList.
Section Sorted.
Context {A : Type} (key : A → string).

Fixpoint insert_by (x : A) (l : list A) : list A :=
  match l with
  | [] => [x]
  | y :: l' =>
      if PyStr.lt (key y) (key x) then y :: insert_by x l'
      else x :: l
  end.

Fixpoint sorted (l : list A) : list A :=
  match l with
  | [] => []
  | x :: l' => insert_by x (sorted l')
  end.

(** Ascending by key: the relation between an element and a later one
    in a list that is sorted by [key]. *)
Definition key_le (a b : A) : Prop := PyStr.le (key a) (key b).
End Sorted.
End PyList.

(** ** resolver.py *)

Module Resolver.

Definition newline : ascii := ascii_of_N 10.

(** [get_brew_list]: [formulae] and [casks] are what
    [subprocess.check_output] returns for [brew formulae] and
    [brew casks], [None] when the call raises. The second call is not
    made when the first one raises; any exception gives the empty set. *)
Definition get_brew_list (formulae casks : option string) : gset string :=
  match formulae with
  | None => ∅
  | Some f =>
      match casks with
      | None => ∅
      | Some c =>
          list_to_set (PyStr.split newline (PyStr.strip f))
          ∪ list_to_set (PyStr.split newline (PyStr.strip c))
      end
  end.

(** [normalize_name] *)
Definition normalize_name (name : string) : string :=
  PyStr.replace "_" "-" (PyStr.replace " " "-" (PyStr.lower name)).

(** [[line.strip() for line in f if line.strip()]] *)
Definition read_apps (lines : list string) : list string :=
  PyStr.strip <$> filter (λ line, Is_true (PyStr.truthy (PyStr.strip line))) lines.

(** [{'app': app, 'command': norm}] *)
Definition resolved_record (app norm : string) : record :=
  <["command" := norm]> {["app" := app]}.

(** [{'app': app, 'normalized': norm}] *)
Definition unresolved_record (app norm : string) : record :=
  <["normalized" := norm]> {["app" := app]}.

(** One turn of the [for app in apps] loop on the pair of lists
    [(resolved, unresolved)]. *)
Definition step (brew_available : gset string)
    (st : list record * list record)
    (app : string) : list record * list record :=
  let norm := normalize_name app in
  if bool_decide (norm ∈ brew_available)
  then (st.1 ++ [resolved_record app norm], st.2)
  else (st.1, st.2 ++ [unresolved_record app norm]).

(** The body of [main] after [get_brew_list]: [apps_raw] is the list of
    lines of the [--apps-raw] file, [None] when the path does not exist.
    The result is the dict that is written to [--output]. *)
Definition resolve (brew_available : gset string)
    (apps_raw : option (list string)) : document :=
  let st :=
    match apps_raw with
    | Some lines => foldl (step brew_available) ([], []) (read_apps lines)
    | None => ([], [])
    end in
  <["unresolved" := st.2]> {["brew_installable" := st.1]}.

Definition main (formulae casks : option string)
    (apps_raw : option (list string)) : document :=
  resolve (get_brew_list formulae casks) apps_raw.

End Resolver.

(** ** enrich.py *)

Module Enrich.

Definition VENDOR_MAP : gmap string string :=
  list_to_map
    [ ("github-desktop", "https://desktop.github.com");
      ("visual-studio-code", "https://code.visualstudio.com");
      ("chrome", "https://www.google.com/chrome");
      ("firefox", "https://www.mozilla.org/firefox");
      ("vlc", "https://www.videolan.org");
      ("discord", "https://discord.com/download");
      ("telegram", "https://telegram.org");
      ("whatsapp", "https://www.whatsapp.com/download");
      ("slack", "https://slack.com/downloads");
      ("zoom", "https://zoom.us/download") ].

(** The body of the [for item in unresolved] loop. *)
Definition enrich_item (item : record) : record :=
  let norm := PyStr.lower (PyDict.get item "normalized" "") in
  match VENDOR_MAP !! norm with
  | Some url =>
      <["confidence" := "high"]> (<["official_download_url" := url]> item)
  | None =>
      <["confidence" := "low"]> (<["official_download_url" := "Not found"]> item)
  end.

(** [lambda x: x.get('app', '')] *)
Definition sort_key (x : record) : string := PyDict.get x "app" "".

(** [main]: [resolved] is the parsed content of the [--resolved] file,
    [None] when the path does not exist. The records are fresh objects
    of [json.load], none shared, so updating each in place is a map over
    the list. *)
Definition main (resolved : option document) : document :=
  let unresolved :=
    match resolved with
    | Some data => enrich_item <$> PyDict.get data "unresolved" []
    | None => []
    end in
  {["unresolved" := PyList.sorted sort_key unresolved]}.

End Enrich.

(** ** Python strings over all of Unicode

    A Python [str] in full: a list of code points.  [lower] follows
    CPython's [do_lower], [lower_ucs4] and [handle_capital_sigma]
    (Objects/unicodeobject.c); the case mapping of the single code points
    is the one of the Unicode Character Database 14.0.0, and the
    properties Cased and Case_Ignorable, which only decide between the two
    lower-case sigmas, are parameters.  On U+0000..U+00FF this is the
    model of [PyStr] (see [UnicodeFacts.normalize_name_latin1]). *)

Module Unicode.

(** The code points whose lower case is one other code point, with that
    code point; U+03A3 and U+0130 are treated apart. *)
Definition LOWER_PAIRS : list (N * N) :=
  ([
   (0x41, 0x61); (0x42, 0x62); (0x43, 0x63); (0x44, 0x64); (0x45, 0x65);
   (0x46, 0x66); (0x47, 0x67); (0x48, 0x68); (0x49, 0x69); (0x4A, 0x6A);
   (0x4B, 0x6B); (0x4C, 0x6C); (0x4D, 0x6D); (0x4E, 0x6E); (0x4F, 0x6F);
   (0x50, 0x70); (0x51, 0x71); (0x52, 0x72); (0x53, 0x73); (0x54, 0x74);
   (0x55, 0x75); (0x56, 0x76); (0x57, 0x77); (0x58, 0x78); (0x59, 0x79);
   (0x5A, 0x7A); (0xC0, 0xE0); (0xC1, 0xE1); (0xC2, 0xE2); (0xC3, 0xE3);
   (0xC4, 0xE4); (0xC5, 0xE5); (0xC6, 0xE6); (0xC7, 0xE7); (0xC8, 0xE8);
   (0xC9, 0xE9); (0xCA, 0xEA); (0xCB, 0xEB); (0xCC, 0xEC); (0xCD, 0xED);
   (0xCE, 0xEE); (0xCF, 0xEF); (0xD0, 0xF0); (0xD1, 0xF1); (0xD2, 0xF2);
   (0xD3, 0xF3); (0xD4, 0xF4); (0xD5, 0xF5); (0xD6, 0xF6); (0xD8, 0xF8);
   (0xD9, 0xF9); (0xDA, 0xFA); (0xDB, 0xFB); (0xDC, 0xFC); (0xDD, 0xFD);
   (0xDE, 0xFE); (0x100, 0x101); (0x102, 0x103); (0x104, 0x105);
   (0x106, 0x107); (0x108, 0x109); (0x10A, 0x10B); (0x10C, 0x10D);
   (0x10E, 0x10F); (0x110, 0x111); (0x112, 0x113); (0x114, 0x115);
   (0x116, 0x117); (0x118, 0x119); (0x11A, 0x11B); (0x11C, 0x11D);
   (0x11E, 0x11F); (0x120, 0x121); (0x122, 0x123); (0x124, 0x125);
   (0x126, 0x127); (0x128, 0x129); (0x12A, 0x12B); (0x12C, 0x12D);
   (0x12E, 0x12F); (0x132, 0x133); (0x134, 0x135); (0x136, 0x137);
   (0x139, 0x13A); (0x13B, 0x13C); (0x13D, 0x13E); (0x13F, 0x140);
   (0x141, 0x142); (0x143, 0x144); (0x145, 0x146); (0x147, 0x148);
   (0x14A, 0x14B); (0x14C, 0x14D); (0x14E, 0x14F); (0x150, 0x151);
   (0x152, 0x153); (0x154, 0x155); (0x156, 0x157); (0x158, 0x159);
   (0x15A, 0x15B); (0x15C, 0x15D); (0x15E, 0x15F); (0x160, 0x161);
   (0x162, 0x163); (0x164, 0x165); (0x166, 0x167); (0x168, 0x169);
   (0x16A, 0x16B); (0x16C, 0x16D); (0x16E, 0x16F); (0x170, 0x171);
   (0x172, 0x173); (0x174, 0x175); (0x176, 0x177); (0x178, 0xFF);
   (0x179, 0x17A); (0x17B, 0x17C); (0x17D, 0x17E); (0x181, 0x253);
   (0x182, 0x183); (0x184, 0x185); (0x186, 0x254); (0x187, 0x188);
   (0x189, 0x256); (0x18A, 0x257); (0x18B, 0x18C); (0x18E, 0x1DD);
   (0x18F, 0x259); (0x190, 0x25B); (0x191, 0x192); (0x193, 0x260);
   (0x194, 0x263); (0x196, 0x269); (0x197, 0x268); (0x198, 0x199);
   (0x19C, 0x26F); (0x19D, 0x272); (0x19F, 0x275); (0x1A0, 0x1A1);
   (0x1A2, 0x1A3); (0x1A4, 0x1A5); (0x1A6, 0x280); (0x1A7, 0x1A8);
   (0x1A9, 0x283); (0x1AC, 0x1AD); (0x1AE, 0x288); (0x1AF, 0x1B0);
   (0x1B1, 0x28A); (0x1B2, 0x28B); (0x1B3, 0x1B4); (0x1B5, 0x1B6);
   (0x1B7, 0x292); (0x1B8, 0x1B9); (0x1BC, 0x1BD); (0x1C4, 0x1C6);
   (0x1C5, 0x1C6); (0x1C7, 0x1C9); (0x1C8, 0x1C9); (0x1CA, 0x1CC);
   (0x1CB, 0x1CC); (0x1CD, 0x1CE); (0x1CF, 0x1D0); (0x1D1, 0x1D2);
   (0x1D3, 0x1D4); (0x1D5, 0x1D6); (0x1D7, 0x1D8); (0x1D9, 0x1DA);
   (0x1DB, 0x1DC); (0x1DE, 0x1DF); (0x1E0, 0x1E1); (0x1E2, 0x1E3);
   (0x1E4, 0x1E5); (0x1E6, 0x1E7); (0x1E8, 0x1E9); (0x1EA, 0x1EB);
   (0x1EC, 0x1ED); (0x1EE, 0x1EF); (0x1F1, 0x1F3); (0x1F2, 0x1F3);
   (0x1F4, 0x1F5); (0x1F6, 0x195); (0x1F7, 0x1BF); (0x1F8, 0x1F9);
   (0x1FA, 0x1FB); (0x1FC, 0x1FD); (0x1FE, 0x1FF); (0x200, 0x201);
   (0x202, 0x203); (0x204, 0x205); (0x206, 0x207); (0x208, 0x209);
   (0x20A, 0x20B); (0x20C, 0x20D); (0x20E, 0x20F); (0x210, 0x211);
   (0x212, 0x213); (0x214, 0x215); (0x216, 0x217); (0x218, 0x219);
   (0x21A, 0x21B); (0x21C, 0x21D); (0x21E, 0x21F); (0x220, 0x19E);
   (0x222, 0x223); (0x224, 0x225); (0x226, 0x227); (0x228, 0x229);
   (0x22A, 0x22B); (0x22C, 0x22D); (0x22E, 0x22F); (0x230, 0x231);
   (0x232, 0x233); (0x23A, 0x2C65); (0x23B, 0x23C); (0x23D, 0x19A);
   (0x23E, 0x2C66); (0x241, 0x242); (0x243, 0x180); (0x244, 0x289);
   (0x245, 0x28C); (0x246, 0x247); (0x248, 0x249); (0x24A, 0x24B);
   (0x24C, 0x24D); (0x24E, 0x24F); (0x370, 0x371); (0x372, 0x373);
   (0x376, 0x377); (0x37F, 0x3F3); (0x386, 0x3AC); (0x388, 0x3AD);
   (0x389, 0x3AE); (0x38A, 0x3AF); (0x38C, 0x3CC); (0x38E, 0x3CD);
   (0x38F, 0x3CE); (0x391, 0x3B1); (0x392, 0x3B2); (0x393, 0x3B3);
   (0x394, 0x3B4); (0x395, 0x3B5); (0x396, 0x3B6); (0x397, 0x3B7);
   (0x398, 0x3B8); (0x399, 0x3B9); (0x39A, 0x3BA); (0x39B, 0x3BB);
   (0x39C, 0x3BC); (0x39D, 0x3BD); (0x39E, 0x3BE); (0x39F, 0x3BF);
   (0x3A0, 0x3C0); (0x3A1, 0x3C1); (0x3A4, 0x3C4); (0x3A5, 0x3C5);
   (0x3A6, 0x3C6); (0x3A7, 0x3C7); (0x3A8, 0x3C8); (0x3A9, 0x3C9);
   (0x3AA, 0x3CA); (0x3AB, 0x3CB); (0x3CF, 0x3D7); (0x3D8, 0x3D9);
   (0x3DA, 0x3DB); (0x3DC, 0x3DD); (0x3DE, 0x3DF); (0x3E0, 0x3E1);
   (0x3E2, 0x3E3); (0x3E4, 0x3E5); (0x3E6, 0x3E7); (0x3E8, 0x3E9);
   (0x3EA, 0x3EB); (0x3EC, 0x3ED); (0x3EE, 0x3EF); (0x3F4, 0x3B8);
   (0x3F7, 0x3F8); (0x3F9, 0x3F2); (0x3FA, 0x3FB); (0x3FD, 0x37B);
   (0x3FE, 0x37C); (0x3FF, 0x37D); (0x400, 0x450); (0x401, 0x451);
   (0x402, 0x452); (0x403, 0x453); (0x404, 0x454); (0x405, 0x455);
   (0x406, 0x456); (0x407, 0x457); (0x408, 0x458); (0x409, 0x459);
   (0x40A, 0x45A); (0x40B, 0x45B); (0x40C, 0x45C); (0x40D, 0x45D);
   (0x40E, 0x45E); (0x40F, 0x45F); (0x410, 0x430); (0x411, 0x431);
   (0x412, 0x432); (0x413, 0x433); (0x414, 0x434); (0x415, 0x435);
   (0x416, 0x436); (0x417, 0x437); (0x418, 0x438); (0x419, 0x439);
   (0x41A, 0x43A); (0x41B, 0x43B); (0x41C, 0x43C); (0x41D, 0x43D);
   (0x41E, 0x43E); (0x41F, 0x43F); (0x420, 0x440); (0x421, 0x441);
   (0x422, 0x442); (0x423, 0x443); (0x424, 0x444); (0x425, 0x445);
   (0x426, 0x446); (0x427, 0x447); (0x428, 0x448); (0x429, 0x449);
   (0x42A, 0x44A); (0x42B, 0x44B); (0x42C, 0x44C); (0x42D, 0x44D);
   (0x42E, 0x44E); (0x42F, 0x44F); (0x460, 0x461); (0x462, 0x463);
   (0x464, 0x465); (0x466, 0x467); (0x468, 0x469); (0x46A, 0x46B);
   (0x46C, 0x46D); (0x46E, 0x46F); (0x470, 0x471); (0x472, 0x473);
   (0x474, 0x475); (0x476, 0x477); (0x478, 0x479); (0x47A, 0x47B);
   (0x47C, 0x47D); (0x47E, 0x47F); (0x480, 0x481); (0x48A, 0x48B);
   (0x48C, 0x48D); (0x48E, 0x48F); (0x490, 0x491); (0x492, 0x493);
   (0x494, 0x495); (0x496, 0x497); (0x498, 0x499); (0x49A, 0x49B);
   (0x49C, 0x49D); (0x49E, 0x49F); (0x4A0, 0x4A1); (0x4A2, 0x4A3);
   (0x4A4, 0x4A5); (0x4A6, 0x4A7); (0x4A8, 0x4A9); (0x4AA, 0x4AB);
   (0x4AC, 0x4AD); (0x4AE, 0x4AF); (0x4B0, 0x4B1); (0x4B2, 0x4B3);
   (0x4B4, 0x4B5); (0x4B6, 0x4B7); (0x4B8, 0x4B9); (0x4BA, 0x4BB);
   (0x4BC, 0x4BD); (0x4BE, 0x4BF); (0x4C0, 0x4CF); (0x4C1, 0x4C2);
   (0x4C3, 0x4C4); (0x4C5, 0x4C6); (0x4C7, 0x4C8); (0x4C9, 0x4CA);
   (0x4CB, 0x4CC); (0x4CD, 0x4CE); (0x4D0, 0x4D1); (0x4D2, 0x4D3);
   (0x4D4, 0x4D5); (0x4D6, 0x4D7); (0x4D8, 0x4D9); (0x4DA, 0x4DB);
   (0x4DC, 0x4DD); (0x4DE, 0x4DF); (0x4E0, 0x4E1); (0x4E2, 0x4E3);
   (0x4E4, 0x4E5); (0x4E6, 0x4E7); (0x4E8, 0x4E9); (0x4EA, 0x4EB);
   (0x4EC, 0x4ED); (0x4EE, 0x4EF); (0x4F0, 0x4F1); (0x4F2, 0x4F3);
   (0x4F4, 0x4F5); (0x4F6, 0x4F7); (0x4F8, 0x4F9); (0x4FA, 0x4FB);
   (0x4FC, 0x4FD); (0x4FE, 0x4FF); (0x500, 0x501); (0x502, 0x503);
   (0x504, 0x505); (0x506, 0x507); (0x508, 0x509); (0x50A, 0x50B);
   (0x50C, 0x50D); (0x50E, 0x50F); (0x510, 0x511); (0x512, 0x513);
   (0x514, 0x515); (0x516, 0x517); (0x518, 0x519); (0x51A, 0x51B);
   (0x51C, 0x51D); (0x51E, 0x51F); (0x520, 0x521); (0x522, 0x523);
   (0x524, 0x525); (0x526, 0x527); (0x528, 0x529); (0x52A, 0x52B);
   (0x52C, 0x52D); (0x52E, 0x52F); (0x531, 0x561); (0x532, 0x562);
   (0x533, 0x563); (0x534, 0x564); (0x535, 0x565); (0x536, 0x566);
   (0x537, 0x567); (0x538, 0x568); (0x539, 0x569); (0x53A, 0x56A);
   (0x53B, 0x56B); (0x53C, 0x56C); (0x53D, 0x56D); (0x53E, 0x56E);
   (0x53F, 0x56F); (0x540, 0x570); (0x541, 0x571); (0x542, 0x572);
   (0x543, 0x573); (0x544, 0x574); (0x545, 0x575); (0x546, 0x576);
   (0x547, 0x577); (0x548, 0x578); (0x549, 0x579); (0x54A, 0x57A);
   (0x54B, 0x57B); (0x54C, 0x57C); (0x54D, 0x57D); (0x54E, 0x57E);
   (0x54F, 0x57F); (0x550, 0x580); (0x551, 0x581); (0x552, 0x582);
   (0x553, 0x583); (0x554, 0x584); (0x555, 0x585); (0x556, 0x586);
   (0x10A0, 0x2D00); (0x10A1, 0x2D01); (0x10A2, 0x2D02); (0x10A3, 0x2D03);
   (0x10A4, 0x2D04); (0x10A5, 0x2D05); (0x10A6, 0x2D06); (0x10A7, 0x2D07);
   (0x10A8, 0x2D08); (0x10A9, 0x2D09); (0x10AA, 0x2D0A); (0x10AB, 0x2D0B);
   (0x10AC, 0x2D0C); (0x10AD, 0x2D0D); (0x10AE, 0x2D0E); (0x10AF, 0x2D0F);
   (0x10B0, 0x2D10); (0x10B1, 0x2D11); (0x10B2, 0x2D12); (0x10B3, 0x2D13);
   (0x10B4, 0x2D14); (0x10B5, 0x2D15); (0x10B6, 0x2D16); (0x10B7, 0x2D17);
   (0x10B8, 0x2D18); (0x10B9, 0x2D19); (0x10BA, 0x2D1A); (0x10BB, 0x2D1B);
   (0x10BC, 0x2D1C); (0x10BD, 0x2D1D); (0x10BE, 0x2D1E); (0x10BF, 0x2D1F);
   (0x10C0, 0x2D20); (0x10C1, 0x2D21); (0x10C2, 0x2D22); (0x10C3, 0x2D23);
   (0x10C4, 0x2D24); (0x10C5, 0x2D25); (0x10C7, 0x2D27); (0x10CD, 0x2D2D);
   (0x13A0, 0xAB70); (0x13A1, 0xAB71); (0x13A2, 0xAB72); (0x13A3, 0xAB73);
   (0x13A4, 0xAB74); (0x13A5, 0xAB75); (0x13A6, 0xAB76); (0x13A7, 0xAB77);
   (0x13A8, 0xAB78); (0x13A9, 0xAB79); (0x13AA, 0xAB7A); (0x13AB, 0xAB7B);
   (0x13AC, 0xAB7C); (0x13AD, 0xAB7D); (0x13AE, 0xAB7E); (0x13AF, 0xAB7F);
   (0x13B0, 0xAB80); (0x13B1, 0xAB81); (0x13B2, 0xAB82); (0x13B3, 0xAB83);
   (0x13B4, 0xAB84); (0x13B5, 0xAB85); (0x13B6, 0xAB86); (0x13B7, 0xAB87);
   (0x13B8, 0xAB88); (0x13B9, 0xAB89); (0x13BA, 0xAB8A); (0x13BB, 0xAB8B);
   (0x13BC, 0xAB8C); (0x13BD, 0xAB8D); (0x13BE, 0xAB8E); (0x13BF, 0xAB8F);
   (0x13C0, 0xAB90); (0x13C1, 0xAB91); (0x13C2, 0xAB92); (0x13C3, 0xAB93);
   (0x13C4, 0xAB94); (0x13C5, 0xAB95); (0x13C6, 0xAB96); (0x13C7, 0xAB97);
   (0x13C8, 0xAB98); (0x13C9, 0xAB99); (0x13CA, 0xAB9A); (0x13CB, 0xAB9B);
   (0x13CC, 0xAB9C); (0x13CD, 0xAB9D); (0x13CE, 0xAB9E); (0x13CF, 0xAB9F);
   (0x13D0, 0xABA0); (0x13D1, 0xABA1); (0x13D2, 0xABA2); (0x13D3, 0xABA3);
   (0x13D4, 0xABA4); (0x13D5, 0xABA5); (0x13D6, 0xABA6); (0x13D7, 0xABA7);
   (0x13D8, 0xABA8); (0x13D9, 0xABA9); (0x13DA, 0xABAA); (0x13DB, 0xABAB);
   (0x13DC, 0xABAC); (0x13DD, 0xABAD); (0x13DE, 0xABAE); (0x13DF, 0xABAF);
   (0x13E0, 0xABB0); (0x13E1, 0xABB1); (0x13E2, 0xABB2); (0x13E3, 0xABB3);
   (0x13E4, 0xABB4); (0x13E5, 0xABB5); (0x13E6, 0xABB6); (0x13E7, 0xABB7);
   (0x13E8, 0xABB8); (0x13E9, 0xABB9); (0x13EA, 0xABBA); (0x13EB, 0xABBB);
   (0x13EC, 0xABBC); (0x13ED, 0xABBD); (0x13EE, 0xABBE); (0x13EF, 0xABBF);
   (0x13F0, 0x13F8); (0x13F1, 0x13F9); (0x13F2, 0x13FA); (0x13F3, 0x13FB);
   (0x13F4, 0x13FC); (0x13F5, 0x13FD); (0x1C90, 0x10D0); (0x1C91, 0x10D1);
   (0x1C92, 0x10D2); (0x1C93, 0x10D3); (0x1C94, 0x10D4); (0x1C95, 0x10D5);
   (0x1C96, 0x10D6); (0x1C97, 0x10D7); (0x1C98, 0x10D8); (0x1C99, 0x10D9);
   (0x1C9A, 0x10DA); (0x1C9B, 0x10DB); (0x1C9C, 0x10DC); (0x1C9D, 0x10DD);
   (0x1C9E, 0x10DE); (0x1C9F, 0x10DF); (0x1CA0, 0x10E0); (0x1CA1, 0x10E1);
   (0x1CA2, 0x10E2); (0x1CA3, 0x10E3); (0x1CA4, 0x10E4); (0x1CA5, 0x10E5);
   (0x1CA6, 0x10E6); (0x1CA7, 0x10E7); (0x1CA8, 0x10E8); (0x1CA9, 0x10E9);
   (0x1CAA, 0x10EA); (0x1CAB, 0x10EB); (0x1CAC, 0x10EC); (0x1CAD, 0x10ED);
   (0x1CAE, 0x10EE); (0x1CAF, 0x10EF); (0x1CB0, 0x10F0); (0x1CB1, 0x10F1);
   (0x1CB2, 0x10F2); (0x1CB3, 0x10F3); (0x1CB4, 0x10F4); (0x1CB5, 0x10F5);
   (0x1CB6, 0x10F6); (0x1CB7, 0x10F7); (0x1CB8, 0x10F8); (0x1CB9, 0x10F9);
   (0x1CBA, 0x10FA); (0x1CBD, 0x10FD); (0x1CBE, 0x10FE); (0x1CBF, 0x10FF);
   (0x1E00, 0x1E01); (0x1E02, 0x1E03); (0x1E04, 0x1E05); (0x1E06, 0x1E07);
   (0x1E08, 0x1E09); (0x1E0A, 0x1E0B); (0x1E0C, 0x1E0D); (0x1E0E, 0x1E0F);
   (0x1E10, 0x1E11); (0x1E12, 0x1E13); (0x1E14, 0x1E15); (0x1E16, 0x1E17);
   (0x1E18, 0x1E19); (0x1E1A, 0x1E1B); (0x1E1C, 0x1E1D); (0x1E1E, 0x1E1F);
   (0x1E20, 0x1E21); (0x1E22, 0x1E23); (0x1E24, 0x1E25); (0x1E26, 0x1E27);
   (0x1E28, 0x1E29); (0x1E2A, 0x1E2B); (0x1E2C, 0x1E2D); (0x1E2E, 0x1E2F);
   (0x1E30, 0x1E31); (0x1E32, 0x1E33); (0x1E34, 0x1E35); (0x1E36, 0x1E37);
   (0x1E38, 0x1E39); (0x1E3A, 0x1E3B); (0x1E3C, 0x1E3D); (0x1E3E, 0x1E3F);
   (0x1E40, 0x1E41); (0x1E42, 0x1E43); (0x1E44, 0x1E45); (0x1E46, 0x1E47);
   (0x1E48, 0x1E49); (0x1E4A, 0x1E4B); (0x1E4C, 0x1E4D); (0x1E4E, 0x1E4F);
   (0x1E50, 0x1E51); (0x1E52, 0x1E53); (0x1E54, 0x1E55); (0x1E56, 0x1E57);
   (0x1E58, 0x1E59); (0x1E5A, 0x1E5B); (0x1E5C, 0x1E5D); (0x1E5E, 0x1E5F);
   (0x1E60, 0x1E61); (0x1E62, 0x1E63); (0x1E64, 0x1E65); (0x1E66, 0x1E67);
   (0x1E68, 0x1E69); (0x1E6A, 0x1E6B); (0x1E6C, 0x1E6D); (0x1E6E, 0x1E6F);
   (0x1E70, 0x1E71); (0x1E72, 0x1E73); (0x1E74, 0x1E75); (0x1E76, 0x1E77);
   (0x1E78, 0x1E79); (0x1E7A, 0x1E7B); (0x1E7C, 0x1E7D); (0x1E7E, 0x1E7F);
   (0x1E80, 0x1E81); (0x1E82, 0x1E83); (0x1E84, 0x1E85); (0x1E86, 0x1E87);
   (0x1E88, 0x1E89); (0x1E8A, 0x1E8B); (0x1E8C, 0x1E8D); (0x1E8E, 0x1E8F);
   (0x1E90, 0x1E91); (0x1E92, 0x1E93); (0x1E94, 0x1E95); (0x1E9E, 0xDF);
   (0x1EA0, 0x1EA1); (0x1EA2, 0x1EA3); (0x1EA4, 0x1EA5); (0x1EA6, 0x1EA7);
   (0x1EA8, 0x1EA9); (0x1EAA, 0x1EAB); (0x1EAC, 0x1EAD); (0x1EAE, 0x1EAF);
   (0x1EB0, 0x1EB1); (0x1EB2, 0x1EB3); (0x1EB4, 0x1EB5); (0x1EB6, 0x1EB7);
   (0x1EB8, 0x1EB9); (0x1EBA, 0x1EBB); (0x1EBC, 0x1EBD); (0x1EBE, 0x1EBF);
   (0x1EC0, 0x1EC1); (0x1EC2, 0x1EC3); (0x1EC4, 0x1EC5); (0x1EC6, 0x1EC7);
   (0x1EC8, 0x1EC9); (0x1ECA, 0x1ECB); (0x1ECC, 0x1ECD); (0x1ECE, 0x1ECF);
   (0x1ED0, 0x1ED1); (0x1ED2, 0x1ED3); (0x1ED4, 0x1ED5); (0x1ED6, 0x1ED7);
   (0x1ED8, 0x1ED9); (0x1EDA, 0x1EDB); (0x1EDC, 0x1EDD); (0x1EDE, 0x1EDF);
   (0x1EE0, 0x1EE1); (0x1EE2, 0x1EE3); (0x1EE4, 0x1EE5); (0x1EE6, 0x1EE7);
   (0x1EE8, 0x1EE9); (0x1EEA, 0x1EEB); (0x1EEC, 0x1EED); (0x1EEE, 0x1EEF);
   (0x1EF0, 0x1EF1); (0x1EF2, 0x1EF3); (0x1EF4, 0x1EF5); (0x1EF6, 0x1EF7);
   (0x1EF8, 0x1EF9); (0x1EFA, 0x1EFB); (0x1EFC, 0x1EFD); (0x1EFE, 0x1EFF);
   (0x1F08, 0x1F00); (0x1F09, 0x1F01); (0x1F0A, 0x1F02); (0x1F0B, 0x1F03);
   (0x1F0C, 0x1F04); (0x1F0D, 0x1F05); (0x1F0E, 0x1F06); (0x1F0F, 0x1F07);
   (0x1F18, 0x1F10); (0x1F19, 0x1F11); (0x1F1A, 0x1F12); (0x1F1B, 0x1F13);
   (0x1F1C, 0x1F14); (0x1F1D, 0x1F15); (0x1F28, 0x1F20); (0x1F29, 0x1F21);
   (0x1F2A, 0x1F22); (0x1F2B, 0x1F23); (0x1F2C, 0x1F24); (0x1F2D, 0x1F25);
   (0x1F2E, 0x1F26); (0x1F2F, 0x1F27); (0x1F38, 0x1F30); (0x1F39, 0x1F31);
   (0x1F3A, 0x1F32); (0x1F3B, 0x1F33); (0x1F3C, 0x1F34); (0x1F3D, 0x1F35);
   (0x1F3E, 0x1F36); (0x1F3F, 0x1F37); (0x1F48, 0x1F40); (0x1F49, 0x1F41);
   (0x1F4A, 0x1F42); (0x1F4B, 0x1F43); (0x1F4C, 0x1F44); (0x1F4D, 0x1F45);
   (0x1F59, 0x1F51); (0x1F5B, 0x1F53); (0x1F5D, 0x1F55); (0x1F5F, 0x1F57);
   (0x1F68, 0x1F60); (0x1F69, 0x1F61); (0x1F6A, 0x1F62); (0x1F6B, 0x1F63);
   (0x1F6C, 0x1F64); (0x1F6D, 0x1F65); (0x1F6E, 0x1F66); (0x1F6F, 0x1F67);
   (0x1F88, 0x1F80); (0x1F89, 0x1F81); (0x1F8A, 0x1F82); (0x1F8B, 0x1F83);
   (0x1F8C, 0x1F84); (0x1F8D, 0x1F85); (0x1F8E, 0x1F86); (0x1F8F, 0x1F87);
   (0x1F98, 0x1F90); (0x1F99, 0x1F91); (0x1F9A, 0x1F92); (0x1F9B, 0x1F93);
   (0x1F9C, 0x1F94); (0x1F9D, 0x1F95); (0x1F9E, 0x1F96); (0x1F9F, 0x1F97);
   (0x1FA8, 0x1FA0); (0x1FA9, 0x1FA1); (0x1FAA, 0x1FA2); (0x1FAB, 0x1FA3);
   (0x1FAC, 0x1FA4); (0x1FAD, 0x1FA5); (0x1FAE, 0x1FA6); (0x1FAF, 0x1FA7);
   (0x1FB8, 0x1FB0); (0x1FB9, 0x1FB1); (0x1FBA, 0x1F70); (0x1FBB, 0x1F71);
   (0x1FBC, 0x1FB3); (0x1FC8, 0x1F72); (0x1FC9, 0x1F73); (0x1FCA, 0x1F74);
   (0x1FCB, 0x1F75); (0x1FCC, 0x1FC3); (0x1FD8, 0x1FD0); (0x1FD9, 0x1FD1);
   (0x1FDA, 0x1F76); (0x1FDB, 0x1F77); (0x1FE8, 0x1FE0); (0x1FE9, 0x1FE1);
   (0x1FEA, 0x1F7A); (0x1FEB, 0x1F7B); (0x1FEC, 0x1FE5); (0x1FF8, 0x1F78);
   (0x1FF9, 0x1F79); (0x1FFA, 0x1F7C); (0x1FFB, 0x1F7D); (0x1FFC, 0x1FF3);
   (0x2126, 0x3C9); (0x212A, 0x6B); (0x212B, 0xE5); (0x2132, 0x214E);
   (0x2160, 0x2170); (0x2161, 0x2171); (0x2162, 0x2172); (0x2163, 0x2173);
   (0x2164, 0x2174); (0x2165, 0x2175); (0x2166, 0x2176); (0x2167, 0x2177);
   (0x2168, 0x2178); (0x2169, 0x2179); (0x216A, 0x217A); (0x216B, 0x217B);
   (0x216C, 0x217C); (0x216D, 0x217D); (0x216E, 0x217E); (0x216F, 0x217F);
   (0x2183, 0x2184); (0x24B6, 0x24D0); (0x24B7, 0x24D1); (0x24B8, 0x24D2);
   (0x24B9, 0x24D3); (0x24BA, 0x24D4); (0x24BB, 0x24D5); (0x24BC, 0x24D6);
   (0x24BD, 0x24D7); (0x24BE, 0x24D8); (0x24BF, 0x24D9); (0x24C0, 0x24DA);
   (0x24C1, 0x24DB); (0x24C2, 0x24DC); (0x24C3, 0x24DD); (0x24C4, 0x24DE);
   (0x24C5, 0x24DF); (0x24C6, 0x24E0); (0x24C7, 0x24E1); (0x24C8, 0x24E2);
   (0x24C9, 0x24E3); (0x24CA, 0x24E4); (0x24CB, 0x24E5); (0x24CC, 0x24E6);
   (0x24CD, 0x24E7); (0x24CE, 0x24E8); (0x24CF, 0x24E9); (0x2C00, 0x2C30);
   (0x2C01, 0x2C31); (0x2C02, 0x2C32); (0x2C03, 0x2C33); (0x2C04, 0x2C34);
   (0x2C05, 0x2C35); (0x2C06, 0x2C36); (0x2C07, 0x2C37); (0x2C08, 0x2C38);
   (0x2C09, 0x2C39); (0x2C0A, 0x2C3A); (0x2C0B, 0x2C3B); (0x2C0C, 0x2C3C);
   (0x2C0D, 0x2C3D); (0x2C0E, 0x2C3E); (0x2C0F, 0x2C3F); (0x2C10, 0x2C40);
   (0x2C11, 0x2C41); (0x2C12, 0x2C42); (0x2C13, 0x2C43); (0x2C14, 0x2C44);
   (0x2C15, 0x2C45); (0x2C16, 0x2C46); (0x2C17, 0x2C47); (0x2C18, 0x2C48);
   (0x2C19, 0x2C49); (0x2C1A, 0x2C4A); (0x2C1B, 0x2C4B); (0x2C1C, 0x2C4C);
   (0x2C1D, 0x2C4D); (0x2C1E, 0x2C4E); (0x2C1F, 0x2C4F); (0x2C20, 0x2C50);
   (0x2C21, 0x2C51); (0x2C22, 0x2C52); (0x2C23, 0x2C53); (0x2C24, 0x2C54);
   (0x2C25, 0x2C55); (0x2C26, 0x2C56); (0x2C27, 0x2C57); (0x2C28, 0x2C58);
   (0x2C29, 0x2C59); (0x2C2A, 0x2C5A); (0x2C2B, 0x2C5B); (0x2C2C, 0x2C5C);
   (0x2C2D, 0x2C5D); (0x2C2E, 0x2C5E); (0x2C2F, 0x2C5F); (0x2C60, 0x2C61);
   (0x2C62, 0x26B); (0x2C63, 0x1D7D); (0x2C64, 0x27D); (0x2C67, 0x2C68);
   (0x2C69, 0x2C6A); (0x2C6B, 0x2C6C); (0x2C6D, 0x251); (0x2C6E, 0x271);
   (0x2C6F, 0x250); (0x2C70, 0x252); (0x2C72, 0x2C73); (0x2C75, 0x2C76);
   (0x2C7E, 0x23F); (0x2C7F, 0x240); (0x2C80, 0x2C81); (0x2C82, 0x2C83);
   (0x2C84, 0x2C85); (0x2C86, 0x2C87); (0x2C88, 0x2C89); (0x2C8A, 0x2C8B);
   (0x2C8C, 0x2C8D); (0x2C8E, 0x2C8F); (0x2C90, 0x2C91); (0x2C92, 0x2C93);
   (0x2C94, 0x2C95); (0x2C96, 0x2C97); (0x2C98, 0x2C99); (0x2C9A, 0x2C9B);
   (0x2C9C, 0x2C9D); (0x2C9E, 0x2C9F); (0x2CA0, 0x2CA1); (0x2CA2, 0x2CA3);
   (0x2CA4, 0x2CA5); (0x2CA6, 0x2CA7); (0x2CA8, 0x2CA9); (0x2CAA, 0x2CAB);
   (0x2CAC, 0x2CAD); (0x2CAE, 0x2CAF); (0x2CB0, 0x2CB1); (0x2CB2, 0x2CB3);
   (0x2CB4, 0x2CB5); (0x2CB6, 0x2CB7); (0x2CB8, 0x2CB9); (0x2CBA, 0x2CBB);
   (0x2CBC, 0x2CBD); (0x2CBE, 0x2CBF); (0x2CC0, 0x2CC1); (0x2CC2, 0x2CC3);
   (0x2CC4, 0x2CC5); (0x2CC6, 0x2CC7); (0x2CC8, 0x2CC9); (0x2CCA, 0x2CCB);
   (0x2CCC, 0x2CCD); (0x2CCE, 0x2CCF); (0x2CD0, 0x2CD1); (0x2CD2, 0x2CD3);
   (0x2CD4, 0x2CD5); (0x2CD6, 0x2CD7); (0x2CD8, 0x2CD9); (0x2CDA, 0x2CDB);
   (0x2CDC, 0x2CDD); (0x2CDE, 0x2CDF); (0x2CE0, 0x2CE1); (0x2CE2, 0x2CE3);
   (0x2CEB, 0x2CEC); (0x2CED, 0x2CEE); (0x2CF2, 0x2CF3); (0xA640, 0xA641);
   (0xA642, 0xA643); (0xA644, 0xA645); (0xA646, 0xA647); (0xA648, 0xA649);
   (0xA64A, 0xA64B); (0xA64C, 0xA64D); (0xA64E, 0xA64F); (0xA650, 0xA651);
   (0xA652, 0xA653); (0xA654, 0xA655); (0xA656, 0xA657); (0xA658, 0xA659);
   (0xA65A, 0xA65B); (0xA65C, 0xA65D); (0xA65E, 0xA65F); (0xA660, 0xA661);
   (0xA662, 0xA663); (0xA664, 0xA665); (0xA666, 0xA667); (0xA668, 0xA669);
   (0xA66A, 0xA66B); (0xA66C, 0xA66D); (0xA680, 0xA681); (0xA682, 0xA683);
   (0xA684, 0xA685); (0xA686, 0xA687); (0xA688, 0xA689); (0xA68A, 0xA68B);
   (0xA68C, 0xA68D); (0xA68E, 0xA68F); (0xA690, 0xA691); (0xA692, 0xA693);
   (0xA694, 0xA695); (0xA696, 0xA697); (0xA698, 0xA699); (0xA69A, 0xA69B);
   (0xA722, 0xA723); (0xA724, 0xA725); (0xA726, 0xA727); (0xA728, 0xA729);
   (0xA72A, 0xA72B); (0xA72C, 0xA72D); (0xA72E, 0xA72F); (0xA732, 0xA733);
   (0xA734, 0xA735); (0xA736, 0xA737); (0xA738, 0xA739); (0xA73A, 0xA73B);
   (0xA73C, 0xA73D); (0xA73E, 0xA73F); (0xA740, 0xA741); (0xA742, 0xA743);
   (0xA744, 0xA745); (0xA746, 0xA747); (0xA748, 0xA749); (0xA74A, 0xA74B);
   (0xA74C, 0xA74D); (0xA74E, 0xA74F); (0xA750, 0xA751); (0xA752, 0xA753);
   (0xA754, 0xA755); (0xA756, 0xA757); (0xA758, 0xA759); (0xA75A, 0xA75B);
   (0xA75C, 0xA75D); (0xA75E, 0xA75F); (0xA760, 0xA761); (0xA762, 0xA763);
   (0xA764, 0xA765); (0xA766, 0xA767); (0xA768, 0xA769); (0xA76A, 0xA76B);
   (0xA76C, 0xA76D); (0xA76E, 0xA76F); (0xA779, 0xA77A); (0xA77B, 0xA77C);
   (0xA77D, 0x1D79); (0xA77E, 0xA77F); (0xA780, 0xA781); (0xA782, 0xA783);
   (0xA784, 0xA785); (0xA786, 0xA787); (0xA78B, 0xA78C); (0xA78D, 0x265);
   (0xA790, 0xA791); (0xA792, 0xA793); (0xA796, 0xA797); (0xA798, 0xA799);
   (0xA79A, 0xA79B); (0xA79C, 0xA79D); (0xA79E, 0xA79F); (0xA7A0, 0xA7A1);
   (0xA7A2, 0xA7A3); (0xA7A4, 0xA7A5); (0xA7A6, 0xA7A7); (0xA7A8, 0xA7A9);
   (0xA7AA, 0x266); (0xA7AB, 0x25C); (0xA7AC, 0x261); (0xA7AD, 0x26C);
   (0xA7AE, 0x26A); (0xA7B0, 0x29E); (0xA7B1, 0x287); (0xA7B2, 0x29D);
   (0xA7B3, 0xAB53); (0xA7B4, 0xA7B5); (0xA7B6, 0xA7B7); (0xA7B8, 0xA7B9);
   (0xA7BA, 0xA7BB); (0xA7BC, 0xA7BD); (0xA7BE, 0xA7BF); (0xA7C0, 0xA7C1);
   (0xA7C2, 0xA7C3); (0xA7C4, 0xA794); (0xA7C5, 0x282); (0xA7C6, 0x1D8E);
   (0xA7C7, 0xA7C8); (0xA7C9, 0xA7CA); (0xA7D0, 0xA7D1); (0xA7D6, 0xA7D7);
   (0xA7D8, 0xA7D9); (0xA7F5, 0xA7F6); (0xFF21, 0xFF41); (0xFF22, 0xFF42);
   (0xFF23, 0xFF43); (0xFF24, 0xFF44); (0xFF25, 0xFF45); (0xFF26, 0xFF46);
   (0xFF27, 0xFF47); (0xFF28, 0xFF48); (0xFF29, 0xFF49); (0xFF2A, 0xFF4A);
   (0xFF2B, 0xFF4B); (0xFF2C, 0xFF4C); (0xFF2D, 0xFF4D); (0xFF2E, 0xFF4E);
   (0xFF2F, 0xFF4F); (0xFF30, 0xFF50); (0xFF31, 0xFF51); (0xFF32, 0xFF52);
   (0xFF33, 0xFF53); (0xFF34, 0xFF54); (0xFF35, 0xFF55); (0xFF36, 0xFF56);
   (0xFF37, 0xFF57); (0xFF38, 0xFF58); (0xFF39, 0xFF59); (0xFF3A, 0xFF5A);
   (0x10400, 0x10428); (0x10401, 0x10429); (0x10402, 0x1042A);
   (0x10403, 0x1042B); (0x10404, 0x1042C); (0x10405, 0x1042D);
   (0x10406, 0x1042E); (0x10407, 0x1042F); (0x10408, 0x10430);
   (0x10409, 0x10431); (0x1040A, 0x10432); (0x1040B, 0x10433);
   (0x1040C, 0x10434); (0x1040D, 0x10435); (0x1040E, 0x10436);
   (0x1040F, 0x10437); (0x10410, 0x10438); (0x10411, 0x10439);
   (0x10412, 0x1043A); (0x10413, 0x1043B); (0x10414, 0x1043C);
   (0x10415, 0x1043D); (0x10416, 0x1043E); (0x10417, 0x1043F);
   (0x10418, 0x10440); (0x10419, 0x10441); (0x1041A, 0x10442);
   (0x1041B, 0x10443); (0x1041C, 0x10444); (0x1041D, 0x10445);
   (0x1041E, 0x10446); (0x1041F, 0x10447); (0x10420, 0x10448);
   (0x10421, 0x10449); (0x10422, 0x1044A); (0x10423, 0x1044B);
   (0x10424, 0x1044C); (0x10425, 0x1044D); (0x10426, 0x1044E);
   (0x10427, 0x1044F); (0x104B0, 0x104D8); (0x104B1, 0x104D9);
   (0x104B2, 0x104DA); (0x104B3, 0x104DB); (0x104B4, 0x104DC);
   (0x104B5, 0x104DD); (0x104B6, 0x104DE); (0x104B7, 0x104DF);
   (0x104B8, 0x104E0); (0x104B9, 0x104E1); (0x104BA, 0x104E2);
   (0x104BB, 0x104E3); (0x104BC, 0x104E4); (0x104BD, 0x104E5);
   (0x104BE, 0x104E6); (0x104BF, 0x104E7); (0x104C0, 0x104E8);
   (0x104C1, 0x104E9); (0x104C2, 0x104EA); (0x104C3, 0x104EB);
   (0x104C4, 0x104EC); (0x104C5, 0x104ED); (0x104C6, 0x104EE);
   (0x104C7, 0x104EF); (0x104C8, 0x104F0); (0x104C9, 0x104F1);
   (0x104CA, 0x104F2); (0x104CB, 0x104F3); (0x104CC, 0x104F4);
   (0x104CD, 0x104F5); (0x104CE, 0x104F6); (0x104CF, 0x104F7);
   (0x104D0, 0x104F8); (0x104D1, 0x104F9); (0x104D2, 0x104FA);
   (0x104D3, 0x104FB); (0x10570, 0x10597); (0x10571, 0x10598);
   (0x10572, 0x10599); (0x10573, 0x1059A); (0x10574, 0x1059B);
   (0x10575, 0x1059C); (0x10576, 0x1059D); (0x10577, 0x1059E);
   (0x10578, 0x1059F); (0x10579, 0x105A0); (0x1057A, 0x105A1);
   (0x1057C, 0x105A3); (0x1057D, 0x105A4); (0x1057E, 0x105A5);
   (0x1057F, 0x105A6); (0x10580, 0x105A7); (0x10581, 0x105A8);
   (0x10582, 0x105A9); (0x10583, 0x105AA); (0x10584, 0x105AB);
   (0x10585, 0x105AC); (0x10586, 0x105AD); (0x10587, 0x105AE);
   (0x10588, 0x105AF); (0x10589, 0x105B0); (0x1058A, 0x105B1);
   (0x1058C, 0x105B3); (0x1058D, 0x105B4); (0x1058E, 0x105B5);
   (0x1058F, 0x105B6); (0x10590, 0x105B7); (0x10591, 0x105B8);
   (0x10592, 0x105B9); (0x10594, 0x105BB); (0x10595, 0x105BC);
   (0x10C80, 0x10CC0); (0x10C81, 0x10CC1); (0x10C82, 0x10CC2);
   (0x10C83, 0x10CC3); (0x10C84, 0x10CC4); (0x10C85, 0x10CC5);
   (0x10C86, 0x10CC6); (0x10C87, 0x10CC7); (0x10C88, 0x10CC8);
   (0x10C89, 0x10CC9); (0x10C8A, 0x10CCA); (0x10C8B, 0x10CCB);
   (0x10C8C, 0x10CCC); (0x10C8D, 0x10CCD); (0x10C8E, 0x10CCE);
   (0x10C8F, 0x10CCF); (0x10C90, 0x10CD0); (0x10C91, 0x10CD1);
   (0x10C92, 0x10CD2); (0x10C93, 0x10CD3); (0x10C94, 0x10CD4);
   (0x10C95, 0x10CD5); (0x10C96, 0x10CD6); (0x10C97, 0x10CD7);
   (0x10C98, 0x10CD8); (0x10C99, 0x10CD9); (0x10C9A, 0x10CDA);
   (0x10C9B, 0x10CDB); (0x10C9C, 0x10CDC); (0x10C9D, 0x10CDD);
   (0x10C9E, 0x10CDE); (0x10C9F, 0x10CDF); (0x10CA0, 0x10CE0);
   (0x10CA1, 0x10CE1); (0x10CA2, 0x10CE2); (0x10CA3, 0x10CE3);
   (0x10CA4, 0x10CE4); (0x10CA5, 0x10CE5); (0x10CA6, 0x10CE6);
   (0x10CA7, 0x10CE7); (0x10CA8, 0x10CE8); (0x10CA9, 0x10CE9);
   (0x10CAA, 0x10CEA); (0x10CAB, 0x10CEB); (0x10CAC, 0x10CEC);
   (0x10CAD, 0x10CED); (0x10CAE, 0x10CEE); (0x10CAF, 0x10CEF);
   (0x10CB0, 0x10CF0); (0x10CB1, 0x10CF1); (0x10CB2, 0x10CF2);
   (0x118A0, 0x118C0); (0x118A1, 0x118C1); (0x118A2, 0x118C2);
   (0x118A3, 0x118C3); (0x118A4, 0x118C4); (0x118A5, 0x118C5);
   (0x118A6, 0x118C6); (0x118A7, 0x118C7); (0x118A8, 0x118C8);
   (0x118A9, 0x118C9); (0x118AA, 0x118CA); (0x118AB, 0x118CB);
   (0x118AC, 0x118CC); (0x118AD, 0x118CD); (0x118AE, 0x118CE);
   (0x118AF, 0x118CF); (0x118B0, 0x118D0); (0x118B1, 0x118D1);
   (0x118B2, 0x118D2); (0x118B3, 0x118D3); (0x118B4, 0x118D4);
   (0x118B5, 0x118D5); (0x118B6, 0x118D6); (0x118B7, 0x118D7);
   (0x118B8, 0x118D8); (0x118B9, 0x118D9); (0x118BA, 0x118DA);
   (0x118BB, 0x118DB); (0x118BC, 0x118DC); (0x118BD, 0x118DD);
   (0x118BE, 0x118DE); (0x118BF, 0x118DF); (0x16E40, 0x16E60);
   (0x16E41, 0x16E61); (0x16E42, 0x16E62); (0x16E43, 0x16E63);
   (0x16E44, 0x16E64); (0x16E45, 0x16E65); (0x16E46, 0x16E66);
   (0x16E47, 0x16E67); (0x16E48, 0x16E68); (0x16E49, 0x16E69);
   (0x16E4A, 0x16E6A); (0x16E4B, 0x16E6B); (0x16E4C, 0x16E6C);
   (0x16E4D, 0x16E6D); (0x16E4E, 0x16E6E); (0x16E4F, 0x16E6F);
   (0x16E50, 0x16E70); (0x16E51, 0x16E71); (0x16E52, 0x16E72);
   (0x16E53, 0x16E73); (0x16E54, 0x16E74); (0x16E55, 0x16E75);
   (0x16E56, 0x16E76); (0x16E57, 0x16E77); (0x16E58, 0x16E78);
   (0x16E59, 0x16E79); (0x16E5A, 0x16E7A); (0x16E5B, 0x16E7B);
   (0x16E5C, 0x16E7C); (0x16E5D, 0x16E7D); (0x16E5E, 0x16E7E);
   (0x16E5F, 0x16E7F); (0x1E900, 0x1E922); (0x1E901, 0x1E923);
   (0x1E902, 0x1E924); (0x1E903, 0x1E925); (0x1E904, 0x1E926);
   (0x1E905, 0x1E927); (0x1E906, 0x1E928); (0x1E907, 0x1E929);
   (0x1E908, 0x1E92A); (0x1E909, 0x1E92B); (0x1E90A, 0x1E92C);
   (0x1E90B, 0x1E92D); (0x1E90C, 0x1E92E); (0x1E90D, 0x1E92F);
   (0x1E90E, 0x1E930); (0x1E90F, 0x1E931); (0x1E910, 0x1E932);
   (0x1E911, 0x1E933); (0x1E912, 0x1E934); (0x1E913, 0x1E935);
   (0x1E914, 0x1E936); (0x1E915, 0x1E937); (0x1E916, 0x1E938);
   (0x1E917, 0x1E939); (0x1E918, 0x1E93A); (0x1E919, 0x1E93B);
   (0x1E91A, 0x1E93C); (0x1E91B, 0x1E93D); (0x1E91C, 0x1E93E);
   (0x1E91D, 0x1E93F); (0x1E91E, 0x1E940); (0x1E91F, 0x1E941);
   (0x1E920, 0x1E942); (0x1E921, 0x1E943)
  ])%N.

Definition LOWER_TABLE : gmap N N := list_to_map LOWER_PAIRS.

(** [_PyUnicode_ToLowerFull]: the lower case of one code point; U+0130 is
    the one code point whose lower case is two code points long. *)
Definition to_lower_full (c : N) : list N :=
  if (c =? 0x130)%N then [0x69; 0x307]%N
  else match LOWER_TABLE !! c with
       | Some d => [d]
       | None => [c]
       end.

Section Lower.
Context (cased case_ignorable : N → bool).

(** The first code point of [s] that is not case-ignorable. *)
Fixpoint skip_ignorable (s : list N) : option N :=
  match s with
  | [] => None
  | c :: s' => if case_ignorable c then skip_ignorable s' else Some c
  end.

(** [handle_capital_sigma]: U+03A3 becomes the final sigma U+03C2 when a
    cased code point comes before it and none comes after it,
    case-ignorable code points skipped, and U+03C3 otherwise.
    [before] holds the code points before it, the nearest first. *)
Definition handle_capital_sigma (before after : list N) : N :=
  let final_sigma :=
    match skip_ignorable before with
    | Some c => cased c
    | None => false
    end in
  let final_sigma :=
    if final_sigma
    then match skip_ignorable after with
         | Some c => negb (cased c)
         | None => true
         end
    else false in
  if final_sigma then 0x3C2%N else 0x3C3%N.

(** [lower_ucs4] *)
Definition lower_ucs4 (before : list N) (c : N) (after : list N) : list N :=
  if (c =? 0x3A3)%N then [handle_capital_sigma before after]
  else to_lower_full c.

(** [do_lower]: the code points of the string in turn, each with the part
    of the string before it (reversed) and the part after it. *)
Fixpoint do_lower (before s : list N) : list N :=
  match s with
  | [] => []
  | c :: s' => lower_ucs4 before c s' ++ do_lower (c :: before) s'
  end.

(** [s.lower()] *)
Definition lower (s : list N) : list N := do_lower [] s.

(** [s.replace(old, new)] where [old] and [new] are single code points. *)
Definition replace (old new : N) (s : list N) : list N :=
  (λ c, if (c =? old)%N then new else c) <$> s.

(** [normalize_name] of resolver.py on any string. *)
Definition normalize_name (name : list N) : list N :=
  replace 0x5F 0x2D (replace 0x20 0x2D (lower name)).

(** The NormalizedName derivation in the words of the specification:
    lowercase, then every space and every underscore becomes a hyphen. *)
Definition normalize_spec (name : list N) : list N :=
  (λ c, if bool_decide (c = 0x20%N ∨ c = 0x5F%N) then 0x2D%N else c)
    <$> lower name.

End Lower.

(** The code points of a string of [PyStr]. *)
Definition of_string (s : string) : list N :=
  N_of_ascii <$> list_ascii_of_string s.

(** Cased and Case_Ignorable on U+0000..U+00FF and the Greek capitals and
    small letters, for examples. *)
Definition sample_cased (c : N) : bool :=
  ((0x41 <=? c) && (c <=? 0x5A) || (0x61 <=? c) && (c <=? 0x7A)
   || (c =? 0xAA) || (c =? 0xB5) || (c =? 0xBA)
   || (0xC0 <=? c) && (c <=? 0xFF) && negb (c =? 0xD7) && negb (c =? 0xF7)
   || (0x391 <=? c) && (c <=? 0x3C9) && negb (c =? 0x3A2))%N.

Definition sample_case_ignorable (c : N) : bool :=
  ((c =? 0x27) || (c =? 0x2E) || (c =? 0x3A) || (c =? 0x5E) || (c =? 0x60)
   || (c =? 0xA8) || (c =? 0xAD) || (c =? 0xAF) || (c =? 0xB4)
   || (c =? 0xB7) || (c =? 0xB8))%N.

End Unicode.

(** ** Sample inputs *)

Module Samples.

Definition discord : record := <["normalized" := "discord"]> {["app" := "Discord"]}.
Definition zoom : record := <["normalized" := "zoom"]> {["app" := "Zoom"]}.
Definition airtable : record := <["normalized" := "airtable"]> {["app" := "Airtable"]}.

(** A record without a [normalized] field. *)
Definition bare : record := {["app" := "Notes"]}.

(** A record without an [app] field. *)
Definition nameless : record := {["normalized" := "vlc"]}.

Definition handoff (l : list record) : document :=
  <["unresolved" := l]> {["brew_installable" := []]}.

(** A document without an [unresolved] bucket. *)
Definition no_bucket : document := {["brew_installable" := [discord]]}.

End Samples.

(** ** Facts about strings *)

Module PyStrFacts.
Import PyStr.

Lemma map_chars_compose (f g : ascii → ascii) (s : string) :
  map_chars f (map_chars g s) = map_chars (λ c, f (g c)) s.
Proof. induction s as [|c s IH]; simpl; [done | by rewrite IH]. Qed.

Lemma map_chars_ext (f g : ascii → ascii) (s : string) :
  (∀ c, f c = g c) → map_chars f s = map_chars g s.
Proof. intros Hfg. induction s as [|c s IH]; simpl; [done | by rewrite Hfg, IH]. Qed.

Lemma lower_char_idempotent (c : ascii) :
  lower_char (lower_char c) = lower_char c.
Proof. by destruct c as [[] [] [] [] [] [] [] []]; vm_compute. Qed.

Lemma lower_idempotent (s : string) : lower (lower s) = lower s.
Proof.
  unfold lower. rewrite map_chars_compose.
  apply map_chars_ext, lower_char_idempotent.
Qed.

(** *** The order on strings *)

Lemma ascii_compare_refl (c : ascii) : Ascii.compare c c = Eq.
Proof. apply N.compare_refl. Qed.

Lemma ascii_compare_lt_trans (a b c : ascii) :
  Ascii.compare a b = Lt → Ascii.compare b c = Lt → Ascii.compare a c = Lt.
Proof. unfold Ascii.compare. rewrite !N.compare_lt_iff. lia. Qed.

Lemma compare_refl (s : string) : String.compare s s = Eq.
Proof. induction s as [|c s IH]; simpl; [done | by rewrite ascii_compare_refl]. Qed.

Lemma compare_lt_trans (a b c : string) :
  String.compare a b = Lt → String.compare b c = Lt → String.compare a c = Lt.
Proof.
  revert b c. induction a as [|x a IH]; intros [|y b] [|z c]; simpl; try done.
  destruct (Ascii.compare x y) eqn:Hxy; try done;
    destruct (Ascii.compare y z) eqn:Hyz; try done; intros Hab Hbc.
  - apply Ascii.compare_eq_iff in Hxy, Hyz. subst.
    rewrite ascii_compare_refl. eauto.
  - apply Ascii.compare_eq_iff in Hxy. subst. by rewrite Hyz.
  - apply Ascii.compare_eq_iff in Hyz. subst. by rewrite Hxy.
  - by rewrite (ascii_compare_lt_trans x y z).
Qed.

Lemma lt_irrefl (a : string) : lt a a = false.
Proof. unfold lt, String.ltb. by rewrite compare_refl. Qed.

Lemma lt_trans (a b c : string) : lt a b = true → lt b c = true → lt a c = true.
Proof.
  unfold lt, String.ltb. intros Hab Hbc.
  destruct (String.compare a b) eqn:Eab; try done.
  destruct (String.compare b c) eqn:Ebc; try done.
  by rewrite (compare_lt_trans a b c).
Qed.

Lemma lt_asym (a b : string) : lt a b = true → lt b a = false.
Proof.
  unfold lt, String.ltb. rewrite (String.compare_antisym a b).
  by destruct (String.compare b a).
Qed.

(** [<] is total: two strings neither of which is below the other are equal. *)
Lemma lt_total (a b : string) : lt a b = false → lt b a = false → a = b.
Proof.
  unfold lt, String.ltb. rewrite (String.compare_antisym a b).
  destruct (String.compare b a) eqn:E; try done.
  intros _ _. symmetry. by apply String.compare_eq_iff.
Qed.

Lemma le_refl (a : string) : le a a.
Proof. apply lt_irrefl. Qed.

Lemma le_antisym (a b : string) : le a b → le b a → a = b.
Proof. unfold le. intros Hab Hba. by apply lt_total. Qed.

Lemma lt_le (a b : string) : lt a b = true → le a b.
Proof. apply lt_asym. Qed.

Lemma le_trans (a b c : string) : le a b → le b c → le a c.
Proof.
  unfold le. intros Hba Hcb.
  destruct (lt c a) eqn:Hca; [|done].
  destruct (lt a b) eqn:Hab.
  - by rewrite (lt_trans c a b) in Hcb.
  - rewrite (lt_total a b Hab Hba) in Hca. congruence.
Qed.


(** *** strip *)

(** A string that does not start with whitespace. *)
Local Abbreviation head_ok t :=
  (match t with EmptyString => True | String c _ => isspace c = false end).

Lemma lstrip_head (s : string) : head_ok (lstrip s).
Proof.
  induction s as [|c s IH]; simpl; [done|].
  destruct (isspace c) eqn:Hc; [done|]. by simpl.
Qed.

Lemma lstrip_fixed (t : string) : head_ok t → lstrip t = t.
Proof. destruct t as [|c t]; simpl; [done|]. by intros ->. Qed.

Lemma rstrip_head (t : string) : head_ok t → head_ok (rstrip t).
Proof.
  destruct t as [|c t]; simpl; [done|]. intros Hc.
  destruct (rstrip t); by rewrite ?Hc.
Qed.

Lemma rstrip_idempotent (t : string) : rstrip (rstrip t) = rstrip t.
Proof.
  induction t as [|c t IH]; simpl; [done|].
  destruct (rstrip t) as [|d r] eqn:Hr.
  - destruct (isspace c) eqn:Hc; simpl; [done|]. by rewrite Hc.
  - change (rstrip (String c (String d r))) with
      (match rstrip (String d r) with
       | EmptyString => if isspace c then EmptyString else String c EmptyString
       | r' => String c r'
       end).
    by rewrite IH.
Qed.

Lemma strip_idempotent (s : string) : strip (strip s) = strip s.
Proof.
  unfold strip.
  rewrite (lstrip_fixed (rstrip (lstrip s))) by apply rstrip_head, lstrip_head.
  apply rstrip_idempotent.
Qed.

Lemma read_line_example :
  strip (String (ascii_of_N 9) (" Visual Studio Code " +:+ String (ascii_of_N 10) ""))
  = "Visual Studio Code".
Proof. reflexivity. Qed.

End PyStrFacts.

(** ** Facts about [sorted] *)

Module PyListFacts.
Import PyList.

Lemma filter_all {A : Type} (P : A → Prop) `{!∀ x, Decision (P x)} (l : list A) :
  Forall P l → filter P l = l.
Proof.
  induction 1 as [|x l Hx Hl IH]; [done|].
  by rewrite filter_cons_True, IH.
Qed.

Lemma filter_none {A : Type} (P : A → Prop) `{!∀ x, Decision (P x)} (l : list A) :
  Forall (λ x, ¬ P x) l → filter P l = [].
Proof.
  induction 1 as [|x l Hx Hl IH]; [done|].
  by rewrite filter_cons_False.
Qed.

Section Sorted.
Context {A : Type} (key : A → string).

Local Abbreviation key_le := (PyList.key_le key).

Lemma insert_by_perm (x : A) (l : list A) : insert_by key x l ≡ₚ x :: l.
Proof.
  induction l as [|y l IH]; simpl; [done|].
  destruct (PyStr.lt (key y) (key x)); [|done].
  rewrite IH. apply Permutation_swap.
Qed.

Lemma sorted_perm (l : list A) : sorted key l ≡ₚ l.
Proof.
  induction l as [|x l IH]; simpl; [done|].
  by rewrite insert_by_perm, IH.
Qed.

Lemma sorted_length (l : list A) : length (sorted key l) = length l.
Proof. by rewrite sorted_perm. Qed.

Lemma elem_of_sorted (x : A) (l : list A) : x ∈ sorted key l ↔ x ∈ l.
Proof. by rewrite sorted_perm. Qed.

Lemma insert_by_sorted (x : A) (l : list A) :
  StronglySorted key_le l → StronglySorted key_le (insert_by key x l).
Proof.
  induction 1 as [|y l Hl IH Hy]; simpl.
  { repeat constructor. }
  destruct (PyStr.lt (key y) (key x)) eqn:Hlt.
  - constructor; [done|].
    rewrite insert_by_perm. constructor; [|done].
    by apply PyStrFacts.lt_le.
  - assert (key_le x y) as Hxy by done.
    constructor; [by constructor|].
    constructor; [done|].
    eapply Forall_impl; [exact Hy|].
    intros z Hz. by eapply PyStrFacts.le_trans.
Qed.

Lemma sorted_sorted (l : list A) : StronglySorted key_le (sorted key l).
Proof.
  induction l as [|x l IH]; simpl; [constructor|].
  by apply insert_by_sorted.
Qed.

(** Stability: the elements of any one key keep their order. *)
Lemma insert_by_stable (k : string) (x : A) (l : list A) :
  filter (λ y, key y = k) (insert_by key x l) = filter (λ y, key y = k) (x :: l).
Proof.
  induction l as [|y l IH]; simpl; [done|].
  destruct (PyStr.lt (key y) (key x)) eqn:Hlt; [|done].
  assert (key y ≠ key x) as Hne.
  { intros Heq. rewrite Heq, PyStrFacts.lt_irrefl in Hlt. done. }
  rewrite filter_cons, IH, !filter_cons.
  repeat case_decide; congruence.
Qed.

Lemma sorted_stable (k : string) (l : list A) :
  filter (λ y, key y = k) (sorted key l) = filter (λ y, key y = k) l.
Proof.
  induction l as [|x l IH]; simpl; [done|].
  by rewrite insert_by_stable, !filter_cons, IH.
Qed.

(** A list that is ascending by key and keeps the order of the elements
    of each key is determined by these two properties: every stable
    sort returns the list that [sorted] returns. *)
Lemma stable_sort_unique (l1 l2 : list A) :
  StronglySorted key_le l1 → StronglySorted key_le l2 →
  (∀ k, filter (λ y, key y = k) l1 = filter (λ y, key y = k) l2) →
  l1 = l2.
Proof.
  intros H1. revert l2.
  induction H1 as [|x l1 Hl1 IH Hx]; intros l2 H2 Hst.
  - destruct l2 as [|y l2]; [done|].
    specialize (Hst (key y)). rewrite filter_cons_True in Hst by done. done.
  - destruct H2 as [|y l2 Hl2 Hy].
    { specialize (Hst (key x)). rewrite filter_cons_True in Hst by done. done. }
    assert (key x = key y) as Hk.
    { apply PyStrFacts.le_antisym.
      - assert (y ∈ filter (λ z, key z = key y) (x :: l1)) as Hin.
        { rewrite Hst, filter_cons_True by done. left. }
        apply list_elem_of_filter in Hin as [_ Hin].
        apply elem_of_cons in Hin as [->|Hin]; [apply PyStrFacts.le_refl|].
        rewrite Forall_forall in Hx. by apply Hx.
      - assert (x ∈ filter (λ z, key z = key x) (y :: l2)) as Hin.
        { rewrite <- Hst, filter_cons_True by done. left. }
        apply list_elem_of_filter in Hin as [_ Hin].
        apply elem_of_cons in Hin as [->|Hin]; [apply PyStrFacts.le_refl|].
        rewrite Forall_forall in Hy. by apply Hy. }
    assert (x = y) as ->.
    { specialize (Hst (key x)).
      rewrite filter_cons_True in Hst by done.
      rewrite filter_cons_True in Hst by done. congruence. }
    f_equal. apply IH; [done|]. intros k.
    specialize (Hst k). rewrite !filter_cons in Hst.
    case_decide; congruence.
Qed.

End Sorted.

(** Sorting commutes with a map that keeps the keys. *)
Lemma sorted_fmap {A B : Type} (key1 : A → string) (key2 : B → string)
    (f : A → B) (l : list A) :
  (∀ x, key2 (f x) = key1 x) →
  sorted key2 (f <$> l) = f <$> sorted key1 l.
Proof.
  intros Hk. induction l as [|x l IH]; [done|].
  rewrite fmap_cons. cbn [sorted]. rewrite IH.
  generalize (sorted key1 l). clear IH.
  intros l'. induction l' as [|y l' IH]; [done|].
  rewrite fmap_cons. cbn [insert_by]. rewrite !Hk.
  destruct (PyStr.lt (key1 y) (key1 x)); [|done].
  by rewrite fmap_cons, IH.
Qed.

End PyListFacts.

(** ** Properties of resolver.py *)

Module ResolverProps.
Import Resolver.

(** *** normalize_name *)

Lemma normalize_name_chars (s : string) :
  normalize_name s =
  PyStr.map_chars
    (λ c, let c' := PyStr.lower_char c in
          let c'' := if Ascii.eqb c' " " then "-"%char else c' in
          if Ascii.eqb c'' "_" then "-"%char else c'') s.
Proof.
  unfold normalize_name, PyStr.replace, PyStr.lower.
  by rewrite !PyStrFacts.map_chars_compose.
Qed.

Example normalize_name_example :
  normalize_name "Visual Studio_Code" = "visual-studio-code".
Proof. reflexivity. Qed.

(** *** The input lines *)

(** Every name that [read_apps] yields is non-empty and trimmed. *)
Lemma read_apps_trimmed (lines : list string) :
  Forall (λ app, app ≠ "" ∧ PyStr.strip app = app) (read_apps lines).
Proof.
  unfold read_apps. apply Forall_fmap, Forall_forall. intros line Hline.
  apply list_elem_of_filter in Hline as [Hne _]. simpl. split.
  - intros He. by rewrite He in Hne.
  - apply PyStrFacts.strip_idempotent.
Qed.

(** Every list of non-empty trimmed names is the reading of some file:
    of the one that has these names as its lines. *)
Lemma read_apps_fixed (apps : list string) :
  Forall (λ app, app ≠ "" ∧ PyStr.strip app = app) apps → read_apps apps = apps.
Proof.
  intros Happs. unfold read_apps.
  rewrite PyListFacts.filter_all.
  - induction Happs as [|app apps [_ Hs] _ IH]; [done|].
    rewrite fmap_cons. by rewrite Hs, IH.
  - eapply Forall_impl; [exact Happs|]. intros app [Hne ->].
    by destruct app.
Qed.

(** *** The loop *)

Local Abbreviation hits catalog apps :=
  (filter (λ app, normalize_name app ∈ (catalog : gset string)) apps).
Local Abbreviation misses catalog apps :=
  (filter (λ app, normalize_name app ∉ (catalog : gset string)) apps).
Local Abbreviation to_resolved :=
  (λ app, resolved_record app (normalize_name app)).
Local Abbreviation to_unresolved :=
  (λ app, unresolved_record app (normalize_name app)).

Lemma foldl_step (catalog : gset string) (apps : list string)
    (resolved unresolved : list record) :
  foldl (step catalog) (resolved, unresolved) apps =
  (resolved ++ (to_resolved <$> hits catalog apps),
   unresolved ++ (to_unresolved <$> misses catalog apps)).
Proof.
  revert resolved unresolved.
  induction apps as [|app apps IH]; intros resolved unresolved.
  { simpl. by rewrite !app_nil_r. }
  cbn [foldl]. unfold step at 2. cbn [fst snd].
  rewrite !filter_cons. case_bool_decide as Hin.
  - rewrite IH, decide_True, decide_False by tauto.
    rewrite fmap_cons. by rewrite <- app_assoc.
  - rewrite IH, decide_False, decide_True by tauto.
    rewrite fmap_cons. by rewrite <- app_assoc.
Qed.

Lemma resolve_some (catalog : gset string) (lines : list string) :
  resolve catalog (Some lines) =
  <["unresolved" := to_unresolved <$> misses catalog (read_apps lines)]>
    {["brew_installable" := to_resolved <$> hits catalog (read_apps lines)]}.
Proof. unfold resolve. by rewrite foldl_step. Qed.

Lemma resolve_unresolved (catalog : gset string) (apps_raw : option (list string)) :
  PyDict.get (resolve catalog apps_raw) "unresolved" [] =
  match apps_raw with
  | Some lines => to_unresolved <$> misses catalog (read_apps lines)
  | None => []
  end.
Proof.
  unfold PyDict.get. destruct apps_raw as [lines|].
  - by rewrite resolve_some, lookup_insert_eq.
  - unfold resolve. by rewrite lookup_insert_eq.
Qed.


(** C5: when a catalog query raises, the catalog is empty, the run still
    returns its document, [brew_installable] is empty and [unresolved]
    holds one record for every input app name, in input order. *)
Theorem catalog_failure_all_unresolved (formulae casks : option string)
    (lines : list string) :
  formulae = None ∨ casks = None →
  get_brew_list formulae casks = ∅
  ∧ main formulae casks (Some lines) =
      <["unresolved" :=
          (λ app, unresolved_record app (normalize_name app)) <$> read_apps lines]>
        {["brew_installable" := []]}
  ∧ (λ r : record, PyDict.get r "app" "")
      <$> PyDict.get (main formulae casks (Some lines)) "unresolved" []
    = read_apps lines.
Proof.
  intros Hfail.
  assert (get_brew_list formulae casks = ∅) as Hcat.
  { destruct Hfail as [-> | ->]; [done|]. by destruct formulae. }
  split; [done|]. unfold main.
  generalize dependent (get_brew_list formulae casks). intros catalog Hcat.
  assert (hits catalog (read_apps lines) = []) as Hhits.
  { apply PyListFacts.filter_none, Forall_forall. intros app _. set_solver. }
  assert (misses catalog (read_apps lines) = read_apps lines) as Hmisses.
  { apply PyListFacts.filter_all, Forall_forall. intros app _. set_solver. }
  split.
  - by rewrite resolve_some, Hhits, Hmisses.
  - rewrite resolve_unresolved, Hmisses, <- list_fmap_compose.
    rewrite <- (list_fmap_id (read_apps lines)) at 2.
    apply list_fmap_ext. intros _ app _. simpl.
    unfold PyDict.get, unresolved_record.
    by rewrite lookup_insert_ne, lookup_singleton_eq.
Qed.

Lemma catalog_failure_all_unresolved_witness :
  ((None : option string) = None ∨ Some "git" = None)
  ∧ main None (Some "git") (Some ["Zoom"; "git"]) =
      <["unresolved" := [unresolved_record "Zoom" "zoom"; unresolved_record "git" "git"]]>
        {["brew_installable" := []]}.
Proof.
  split; [by left|].
  apply (catalog_failure_all_unresolved None (Some "git") ["Zoom"; "git"]).
  by left.
Defined.

(** C6: in every document the Resolver returns, each record of the
    [unresolved] bucket has an [app] field and a [normalized] field, and
    the second is [normalize_name] of the first. *)
Theorem unresolved_normalized_reproducible (brew_available : gset string)
    (apps_raw : option (list string)) :
  Forall (λ r : record, ∃ app, r !! "app" = Some app
                               ∧ r !! "normalized" = Some (normalize_name app))
    (PyDict.get (resolve brew_available apps_raw) "unresolved" []).
Proof.
  rewrite resolve_unresolved. destruct apps_raw as [lines|]; [|constructor].
  apply Forall_fmap, Forall_forall. intros app _. exists app. simpl.
  unfold unresolved_record.
  by rewrite lookup_insert_ne, lookup_singleton_eq, lookup_insert_eq.
Qed.

(** C8: when the [--apps-raw] path does not exist, the document has two
    empty buckets, whatever the catalog is and whether or not the catalog
    queries succeed. *)
Theorem missing_apps_raw_empty_buckets (brew_available : gset string)
    (formulae casks : option string) :
  resolve brew_available None = <["unresolved" := []]> {["brew_installable" := []]}
  ∧ main formulae casks None = <["unresolved" := []]> {["brew_installable" := []]}.
Proof. done. Qed.

(** The example of the specification: a catalog with [visual-studio-code]
    and without [google-chrome]. *)
Example resolve_example :
  main (Some "git
visual-studio-code") (Some "zoom") (Some ["Visual Studio Code
"; "
"; "Google Chrome
"]) =
  <["unresolved" := [unresolved_record "Google Chrome" "google-chrome"]]>
    {["brew_installable" := [resolved_record "Visual Studio Code" "visual-studio-code"]]}.
Proof. by vm_compute. Qed.

End ResolverProps.

(** ** Properties of enrich.py *)

Module EnrichProps.
Import Enrich.

(** *** The loop body *)

Lemma enrich_item_url (item : record) :
  enrich_item item !! "official_download_url" =
  Some (default "Not found" (VENDOR_MAP !! PyStr.lower (PyDict.get item "normalized" ""))).
Proof.
  unfold enrich_item.
  destruct (VENDOR_MAP !! _) as [url|]; simpl;
    by rewrite lookup_insert_ne, lookup_insert_eq.
Qed.

Lemma enrich_item_confidence (item : record) :
  enrich_item item !! "confidence" =
  Some (match VENDOR_MAP !! PyStr.lower (PyDict.get item "normalized" "") with
        | Some _ => "high"
        | None => "low"
        end).
Proof.
  unfold enrich_item.
  destruct (VENDOR_MAP !! _) as [url|]; by rewrite lookup_insert_eq.
Qed.

(** Every other field is left as it is. *)
Lemma enrich_item_other (item : record) (k : string) :
  k ≠ "official_download_url" → k ≠ "confidence" →
  enrich_item item !! k = item !! k.
Proof.
  intros Hu Hc. unfold enrich_item.
  destruct (VENDOR_MAP !! _) as [url|]; by rewrite !lookup_insert_ne.
Qed.

Lemma enrich_item_dom (item : record) :
  dom (enrich_item item) =
  dom item ∪ ({["official_download_url"; "confidence"]} : gset string).
Proof.
  unfold enrich_item.
  destruct (VENDOR_MAP !! _) as [url|]; rewrite !dom_insert_L;
    apply set_eq; intros k; rewrite !elem_of_union, !elem_of_singleton; tauto.
Qed.

Lemma sort_key_enrich_item (item : record) :
  sort_key (enrich_item item) = sort_key item.
Proof. unfold sort_key, PyDict.get. by rewrite enrich_item_other. Qed.

(** *** The output list *)

Lemma main_unresolved (data : document) (l : list record) :
  data !! "unresolved" = Some l →
  PyDict.get (main (Some data)) "unresolved" [] =
  PyList.sorted sort_key (enrich_item <$> l).
Proof.
  intros Hl. unfold main, PyDict.get.
  by rewrite lookup_singleton_eq, Hl.
Qed.

(** The output list is the input list, reordered by [app], with each
    record replaced by its enriched record. *)
Lemma main_pointwise (data : document) (l : list record) :
  data !! "unresolved" = Some l →
  PyDict.get (main (Some data)) "unresolved" [] =
  enrich_item <$> PyList.sorted sort_key l.
Proof.
  intros Hl. rewrite (main_unresolved data l Hl).
  apply PyListFacts.sorted_fmap, sort_key_enrich_item.
Qed.

Lemma main_Forall2 (P : record → record → Prop) (data : document) (l : list record) :
  data !! "unresolved" = Some l →
  (∀ item, item ∈ l → P item (enrich_item item)) →
  ∃ l', l' ≡ₚ l
        ∧ Forall2 P l' (PyDict.get (main (Some data)) "unresolved" []).
Proof.
  intros Hl HP. exists (PyList.sorted sort_key l).
  split; [apply PyListFacts.sorted_perm|].
  rewrite (main_pointwise data l Hl).
  apply Forall2_fmap_r, Forall_Forall2_diag, Forall_forall.
  intros item Hitem. apply HP. by apply PyListFacts.elem_of_sorted in Hitem.
Qed.

(** C2: the output list holds, for the entries of the input list taken in
    some order, one record each; that record has the entry's other fields
    and, when the lowercased [normalized] field of the entry is a key of
    [VENDOR_MAP], the table's URL and confidence [high], otherwise the URL
    [Not found] and confidence [low]. An entry normalized to [discord]
    gets the Discord download URL and [high]. *)
Theorem enrich_vendor_lookup (data : document) (l : list record) :
  data !! "unresolved" = Some l →
  ∃ l', l' ≡ₚ l ∧
    Forall2
      (λ item r : record,
         (∀ k, k ≠ "official_download_url" → k ≠ "confidence" → r !! k = item !! k)
         ∧ match VENDOR_MAP !! PyStr.lower (PyDict.get item "normalized" "") with
           | Some url => r !! "official_download_url" = Some url
                         ∧ r !! "confidence" = Some "high"
           | None => r !! "official_download_url" = Some "Not found"
                     ∧ r !! "confidence" = Some "low"
           end
         ∧ (item !! "normalized" = Some "discord" →
            r !! "official_download_url" = Some "https://discord.com/download"
            ∧ r !! "confidence" = Some "high"))
      l' (PyDict.get (main (Some data)) "unresolved" []).
Proof.
  intros Hl. apply main_Forall2; [done|]. intros item _.
  split; [apply enrich_item_other|]. split.
  - rewrite enrich_item_url, enrich_item_confidence.
    by destruct (VENDOR_MAP !! _).
  - intros Hd. rewrite enrich_item_url, enrich_item_confidence.
    unfold PyDict.get. rewrite Hd. done.
Qed.

Lemma enrich_vendor_lookup_witness :
  Samples.handoff [Samples.zoom; Samples.airtable] !! "unresolved"
    = Some [Samples.zoom; Samples.airtable]
  ∧ ∃ l', l' ≡ₚ [Samples.zoom; Samples.airtable] ∧
    Forall2
      (λ item r : record,
         (∀ k, k ≠ "official_download_url" → k ≠ "confidence" → r !! k = item !! k)
         ∧ match VENDOR_MAP !! PyStr.lower (PyDict.get item "normalized" "") with
           | Some url => r !! "official_download_url" = Some url
                         ∧ r !! "confidence" = Some "high"
           | None => r !! "official_download_url" = Some "Not found"
                     ∧ r !! "confidence" = Some "low"
           end
         ∧ (item !! "normalized" = Some "discord" →
            r !! "official_download_url" = Some "https://discord.com/download"
            ∧ r !! "confidence" = Some "high"))
      l' (PyDict.get
            (main (Some (Samples.handoff [Samples.zoom; Samples.airtable])))
            "unresolved" []).
Proof.
  split; [reflexivity|].
  apply (enrich_vendor_lookup
           (Samples.handoff [Samples.zoom; Samples.airtable])
           [Samples.zoom; Samples.airtable]).
  reflexivity.
Defined.

(** C10: an entry without a [normalized] field is enriched like any
    other: the field counts as the empty string, which is not a key of
    [VENDOR_MAP], and the output holds a record with the entry's other
    fields, the URL [Not found] and confidence [low]. *)
Theorem enrich_missing_normalized (data : document) (l : list record)
    (item : record) :
  data !! "unresolved" = Some l → item ∈ l → item !! "normalized" = None →
  VENDOR_MAP !! PyStr.lower "" = None
  ∧ ∃ r, r ∈ PyDict.get (main (Some data)) "unresolved" []
      ∧ (∀ k, k ≠ "official_download_url" → k ≠ "confidence" → r !! k = item !! k)
      ∧ r !! "official_download_url" = Some "Not found"
      ∧ r !! "confidence" = Some "low".
Proof.
  intros Hl Hitem Hnone. split; [done|].
  exists (enrich_item item). split; [|split].
  - rewrite (main_unresolved data l Hl), PyListFacts.elem_of_sorted.
    by apply list_elem_of_fmap_2.
  - apply enrich_item_other.
  - rewrite enrich_item_url, enrich_item_confidence.
    unfold PyDict.get. by rewrite Hnone.
Qed.

Lemma enrich_missing_normalized_witness :
  Samples.handoff [Samples.zoom; Samples.bare] !! "unresolved"
    = Some [Samples.zoom; Samples.bare]
  ∧ Samples.bare ∈ [Samples.zoom; Samples.bare]
  ∧ Samples.bare !! "normalized" = None
  ∧ ∃ r, r ∈ PyDict.get
               (main (Some (Samples.handoff [Samples.zoom; Samples.bare])))
               "unresolved" []
      ∧ (∀ k, k ≠ "official_download_url" → k ≠ "confidence"
              → r !! k = Samples.bare !! k)
      ∧ r !! "official_download_url" = Some "Not found"
      ∧ r !! "confidence" = Some "low".
Proof.
  split; [reflexivity|]. split; [apply list_elem_of_In; simpl; tauto|].
  split; [reflexivity|].
  apply (enrich_missing_normalized
           (Samples.handoff [Samples.zoom; Samples.bare])
           [Samples.zoom; Samples.bare] Samples.bare).
  - reflexivity.
  - apply list_elem_of_In; simpl; tauto.
  - reflexivity.
Defined.

(** C7: when the [--resolved] path does not exist, or the document read
    from it has no [unresolved] key, the Enricher returns the document
    whose only bucket is an empty [unresolved]. *)
Theorem enrich_missing_input (resolved : option document) :
  (resolved = None ∨ ∃ data, resolved = Some data ∧ data !! "unresolved" = None) →
  main resolved = {["unresolved" := []]}.
Proof.
  intros [-> | (data & -> & Hnone)]; [done|].
  unfold main, PyDict.get. by rewrite Hnone.
Qed.

Lemma enrich_missing_input_witness :
  main None = {["unresolved" := []]}
  ∧ Samples.no_bucket !! "unresolved" = None
  ∧ main (Some Samples.no_bucket) = {["unresolved" := []]}.
Proof.
  split; [|split].
  - apply (enrich_missing_input None). by left.
  - reflexivity.
  - apply (enrich_missing_input (Some Samples.no_bucket)).
    right. exists Samples.no_bucket. split; reflexivity.
Defined.

(** C9: the output list is as long as the input list and, for the input
    records taken in some order, holds one record each that has the same
    [app] and [normalized] fields and the same value at every key other
    than [official_download_url] and [confidence]; its keys are the keys
    of the input record and these two. *)
Theorem enrich_frame (data : document) (l : list record) :
  data !! "unresolved" = Some l →
  length (PyDict.get (main (Some data)) "unresolved" []) = length l
  ∧ ∃ l', l' ≡ₚ l ∧
      Forall2
        (λ item r : record,
           r !! "app" = item !! "app"
           ∧ r !! "normalized" = item !! "normalized"
           ∧ (∀ k, k ≠ "official_download_url" → k ≠ "confidence"
                   → r !! k = item !! k)
           ∧ dom r = dom item
                     ∪ ({["official_download_url"; "confidence"]} : gset string))
        l' (PyDict.get (main (Some data)) "unresolved" []).
Proof.
  intros Hl. split.
  - by rewrite (main_unresolved data l Hl), PyListFacts.sorted_length, length_fmap.
  - apply main_Forall2; [done|]. intros item _.
    split; [by apply enrich_item_other|].
    split; [by apply enrich_item_other|].
    split; [apply enrich_item_other | apply enrich_item_dom].
Qed.

Lemma enrich_frame_witness :
  Samples.handoff [Samples.zoom; Samples.bare; Samples.airtable] !! "unresolved"
    = Some [Samples.zoom; Samples.bare; Samples.airtable]
  ∧ length (PyDict.get
              (main (Some (Samples.handoff
                             [Samples.zoom; Samples.bare; Samples.airtable])))
              "unresolved" []) = 3.
Proof.
  split; [reflexivity|].
  apply (enrich_frame
           (Samples.handoff [Samples.zoom; Samples.bare; Samples.airtable])
           [Samples.zoom; Samples.bare; Samples.airtable]).
  reflexivity.
Defined.



(** A record without [app] goes first, and two records with the same
    [app] keep their order. *)
Example enrich_order_example :
  PyDict.get
    (main (Some (Samples.handoff
                   [Samples.zoom; Samples.discord; Samples.nameless;
                    <["note" := "second"]> Samples.discord; Samples.airtable])))
    "unresolved" []
  = enrich_item <$>
      [Samples.nameless; Samples.airtable; Samples.discord;
       <["note" := "second"]> Samples.discord; Samples.zoom].
Proof. by vm_compute. Qed.

(** The two stages in a row, on the example of the specification. *)
Example pipeline_example :
  main (Some (Resolver.main (Some "visual-studio-code") (Some "zoom")
                (Some ["Visual Studio Code"; "Google Chrome"])))
  = {["unresolved" :=
        [ <["confidence" := "low"]>
            (<["official_download_url" := "Not found"]>
               (Resolver.unresolved_record "Google Chrome" "google-chrome")) ]]}.
Proof. by vm_compute. Qed.

End EnrichProps.

(** ** Further facts about strings *)

Module PyStrMore.
Import PyStr.

(** The character map that [normalize_name] applies. *)
Local Abbreviation norm_char :=
  (λ c : ascii,
     let c' := lower_char c in
     let c'' := if Ascii.eqb c' " " then "-"%char else c' in
     if Ascii.eqb c'' "_" then "-"%char else c'').

Lemma norm_char_idempotent (c : ascii) : norm_char (norm_char c) = norm_char c.
Proof. by destruct c as [[] [] [] [] [] [] [] []]; vm_compute. Qed.

Lemma normalize_name_twice (s : string) :
  Resolver.normalize_name (Resolver.normalize_name s) = Resolver.normalize_name s.
Proof.
  rewrite !ResolverProps.normalize_name_chars, PyStrFacts.map_chars_compose.
  apply PyStrFacts.map_chars_ext, norm_char_idempotent.
Qed.

Lemma normalize_name_nonempty (s : string) :
  s ≠ "" → Resolver.normalize_name s ≠ "".
Proof.
  rewrite ResolverProps.normalize_name_chars. by destruct s.
Qed.

End PyStrMore.

(** ** Further properties of resolver.py *)

Module ResolverExtra.
Import Resolver.

(** *** Helpers *)

Lemma filter_ext_in {A : Type} (P Q : A → Prop)
    `{!∀ x, Decision (P x)} `{!∀ x, Decision (Q x)} (l : list A) :
  (∀ x, x ∈ l → (P x ↔ Q x)) → filter P l = filter Q l.
Proof.
  induction l as [|x l IH]; intros Hl; [done|].
  rewrite !filter_cons, IH by (intros y Hy; apply Hl; by right).
  destruct (decide (P x)) as [HP|HP], (decide (Q x)) as [HQ|HQ]; try done.
  - destruct HQ. by apply (Hl x); [left|].
  - destruct HP. by apply (Hl x); [left|].
Qed.

Lemma filter_sublist_impl {A : Type} (P Q : A → Prop)
    `{!∀ x, Decision (P x)} `{!∀ x, Decision (Q x)} (l : list A) :
  (∀ x, P x → Q x) → filter P l `sublist_of` filter Q l.
Proof.
  intros HPQ. induction l as [|x l IH]; [done|].
  rewrite !filter_cons.
  destruct (decide (P x)) as [HP|HP], (decide (Q x)) as [HQ|HQ].
  - by apply sublist_skip.
  - destruct HQ. by apply HPQ.
  - by apply sublist_cons.
  - done.
Qed.

Lemma split_nonempty (sep : ascii) (s : string) : PyStr.split sep s ≠ [].
Proof.
  destruct s as [|c s]; simpl; [done|].
  destruct (Ascii.eqb c sep); [done|]. by destruct (PyStr.split sep s).
Qed.

Lemma resolve_installable (catalog : gset string) (apps_raw : option (list string)) :
  PyDict.get (resolve catalog apps_raw) "brew_installable" [] =
  match apps_raw with
  | Some lines =>
      (λ app, resolved_record app (normalize_name app))
        <$> filter (λ app, normalize_name app ∈ catalog) (read_apps lines)
  | None => []
  end.
Proof.
  unfold PyDict.get. destruct apps_raw as [lines|].
  - rewrite ResolverProps.resolve_some.
    by rewrite lookup_insert_ne, lookup_singleton_eq.
  - unfold resolve. by rewrite lookup_insert_ne, lookup_singleton_eq.
Qed.

(** The document depends on the catalog only through the membership of
    the normalized names of the apps that were read. *)
Lemma resolve_ext (c1 c2 : gset string) (apps_raw : option (list string)) :
  (∀ app, app ∈ default [] (read_apps <$> apps_raw) →
     (normalize_name app ∈ c1 ↔ normalize_name app ∈ c2)) →
  resolve c1 apps_raw = resolve c2 apps_raw.
Proof.
  intros Hext. destruct apps_raw as [lines|]; [|done]. simpl in Hext.
  rewrite !ResolverProps.resolve_some.
  rewrite (filter_ext_in (λ app, normalize_name app ∈ c1)
             (λ app, normalize_name app ∈ c2)) by done.
  rewrite (filter_ext_in (λ app, normalize_name app ∉ c1)
             (λ app, normalize_name app ∉ c2)); [done|].
  intros app Happ. by rewrite (Hext app).
Qed.

(** *** get_brew_list *)

(** The catalog is empty exactly when one of the two queries raised: a
    query that returns, even with no output at all, gives an entry. *)
Theorem get_brew_list_empty_iff (formulae casks : option string) :
  get_brew_list formulae casks = ∅ ↔ formulae = None ∨ casks = None.
Proof.
  split.
  - destruct formulae as [f|], casks as [c|]; simpl; auto.
    intros Hempty. exfalso.
    destruct (PyStr.split newline (PyStr.strip f)) as [|h t] eqn:Hsplit.
    { by apply split_nonempty in Hsplit. }
    assert (h ∈ (∅ : gset string)) as Hin; [|by apply elem_of_empty in Hin].
    rewrite <- Hempty, elem_of_union, !elem_of_list_to_set. left. left.
  - intros [-> | ->]; [done|]. by destruct formulae.
Qed.

(** Two queries that return nothing but whitespace leave the run as it is
    when the queries raise: the only entry is the empty string, and no
    app name normalizes to it. *)
Theorem blank_catalog_as_failure (f c : string) (apps_raw : option (list string)) :
  PyStr.strip f = "" → PyStr.strip c = "" →
  get_brew_list (Some f) (Some c) = {[ "" ]}
  ∧ main (Some f) (Some c) apps_raw = main None None apps_raw.
Proof.
  intros Hf Hc.
  assert (get_brew_list (Some f) (Some c) = {[ "" ]}) as Hcat.
  { simpl. rewrite Hf, Hc. simpl. by rewrite !union_empty_r_L, union_idemp_L. }
  split; [done|]. unfold main. rewrite Hcat. apply resolve_ext.
  intros app Happ. destruct apps_raw as [lines|]; [|by inversion Happ].
  assert (normalize_name app ≠ "") as Hne.
  { apply PyStrMore.normalize_name_nonempty.
    pose proof (ResolverProps.read_apps_trimmed lines) as Hall.
    rewrite Forall_forall in Hall. by apply Hall. }
  simpl. rewrite elem_of_singleton, elem_of_empty. tauto.
Qed.

Lemma blank_catalog_as_failure_witness :
  PyStr.strip " " = "" ∧ PyStr.strip "" = ""
  ∧ main (Some " ") (Some "") (Some ["Zoom"]) = main None None (Some ["Zoom"]).
Proof.
  split; [reflexivity|]. split; [reflexivity|].
  apply (blank_catalog_as_failure " " "" (Some ["Zoom"])); reflexivity.
Defined.

(** *** The buckets *)

(** Every record of [brew_installable] has exactly the fields [app] and
    [command], its command is the normalized name of its app and is a
    catalog entry; every record of [unresolved] has exactly the fields
    [app] and [normalized], and its normalized name is no catalog entry. *)
Theorem resolve_buckets_sound (brew_available : gset string)
    (apps_raw : option (list string)) :
  Forall (λ r : record, ∃ app,
            r !! "app" = Some app
            ∧ r !! "command" = Some (normalize_name app)
            ∧ normalize_name app ∈ brew_available
            ∧ dom r = ({["app"; "command"]} : gset string))
    (PyDict.get (resolve brew_available apps_raw) "brew_installable" [])
  ∧ Forall (λ r : record, ∃ app,
              r !! "app" = Some app
              ∧ r !! "normalized" = Some (normalize_name app)
              ∧ (normalize_name app ∉ brew_available)
              ∧ dom r = ({["app"; "normalized"]} : gset string))
      (PyDict.get (resolve brew_available apps_raw) "unresolved" []).
Proof.
  rewrite resolve_installable, ResolverProps.resolve_unresolved.
  destruct apps_raw as [lines|]; [|split; constructor].
  split; apply Forall_fmap, Forall_forall; intros app Happ;
    apply list_elem_of_filter in Happ as [Hcat _]; exists app; simpl.
  - unfold resolved_record.
    rewrite lookup_insert_ne, lookup_singleton_eq, lookup_insert_eq by done.
    rewrite dom_insert_L, dom_singleton_L.
    by repeat split.
  - unfold unresolved_record.
    rewrite lookup_insert_ne, lookup_singleton_eq, lookup_insert_eq by done.
    rewrite dom_insert_L, dom_singleton_L.
    by repeat split.
Qed.

(** No app is lost or invented: the [app] fields of the two buckets taken
    together are the names that were read, each as often as it was read. *)
Theorem resolve_conserves_apps (brew_available : gset string) (lines : list string) :
  (λ r : record, PyDict.get r "app" "")
    <$> (PyDict.get (resolve brew_available (Some lines)) "brew_installable" []
         ++ PyDict.get (resolve brew_available (Some lines)) "unresolved" [])
  ≡ₚ read_apps lines.
Proof.
  rewrite resolve_installable, ResolverProps.resolve_unresolved.
  assert (∀ l : list string,
            (λ r : record, PyDict.get r "app" "")
              <$> ((λ app, resolved_record app (normalize_name app)) <$> l) = l) as Hres.
  { intros l. rewrite <- list_fmap_compose. etrans; [|apply list_fmap_id].
    apply list_fmap_ext. intros _ app _. simpl. unfold PyDict.get, resolved_record.
    by rewrite lookup_insert_ne, lookup_singleton_eq. }
  assert (∀ l : list string,
            (λ r : record, PyDict.get r "app" "")
              <$> ((λ app, unresolved_record app (normalize_name app)) <$> l) = l) as Hunr.
  { intros l. rewrite <- list_fmap_compose. etrans; [|apply list_fmap_id].
    apply list_fmap_ext. intros _ app _. simpl. unfold PyDict.get, unresolved_record.
    by rewrite lookup_insert_ne, lookup_singleton_eq. }
  rewrite fmap_app, Hres, Hunr. apply filter_app_complement.
Qed.

(** A larger catalog resolves more: when every entry of one catalog is an
    entry of another, the first [brew_installable] is a subsequence of the
    second and the second [unresolved] is a subsequence of the first. *)
Theorem resolve_monotone (c1 c2 : gset string) (apps_raw : option (list string)) :
  c1 ⊆ c2 →
  PyDict.get (resolve c1 apps_raw) "brew_installable" []
    `sublist_of` PyDict.get (resolve c2 apps_raw) "brew_installable" []
  ∧ PyDict.get (resolve c2 apps_raw) "unresolved" []
      `sublist_of` PyDict.get (resolve c1 apps_raw) "unresolved" [].
Proof.
  intros Hsub. rewrite !resolve_installable, !ResolverProps.resolve_unresolved.
  destruct apps_raw as [lines|]; [|done].
  split; apply fmap_sublist, filter_sublist_impl; intros app Happ; auto.
Qed.

Lemma resolve_monotone_witness :
  ({["zoom"]} : gset string) ⊆ {["zoom"; "vlc"]}
  ∧ PyDict.get (resolve {["zoom"; "vlc"]} (Some ["Zoom"; "VLC"; "Notes"])) "unresolved" []
      `sublist_of`
    PyDict.get (resolve {["zoom"]} (Some ["Zoom"; "VLC"; "Notes"])) "unresolved" [].
Proof.
  assert (({["zoom"]} : gset string) ⊆ {["zoom"; "vlc"]}) as Hsub
    by (apply union_subseteq_l).
  split; [exact Hsub|].
  apply (resolve_monotone {["zoom"]} {["zoom"; "vlc"]}
           (Some ["Zoom"; "VLC"; "Notes"]) Hsub).
Defined.

(** For app names and catalog entries of code points U+0000..U+00FF:
    only the catalog entries that are normalized names can be matched.
    Dropping every entry that [normalize_name] would change (one with an
    upper-case letter, a space or an underscore) leaves the document as it
    is. *)
Theorem resolve_ignores_unnormalized (brew_available : gset string)
    (apps_raw : option (list string)) :
  resolve (filter (λ entry, normalize_name entry = entry) brew_available) apps_raw
  = resolve brew_available apps_raw.
Proof.
  apply resolve_ext. intros app _. rewrite elem_of_filter.
  pose proof (PyStrMore.normalize_name_twice app). tauto.
Qed.

(** The file is processed line by line: the buckets for a file that is
    one list of lines followed by another are the buckets for the first
    followed by the buckets for the second. *)
Theorem resolve_app (brew_available : gset string) (lines1 lines2 : list string) :
  PyDict.get (resolve brew_available (Some (lines1 ++ lines2))) "brew_installable" []
  = PyDict.get (resolve brew_available (Some lines1)) "brew_installable" []
    ++ PyDict.get (resolve brew_available (Some lines2)) "brew_installable" []
  ∧ PyDict.get (resolve brew_available (Some (lines1 ++ lines2))) "unresolved" []
    = PyDict.get (resolve brew_available (Some lines1)) "unresolved" []
      ++ PyDict.get (resolve brew_available (Some lines2)) "unresolved" [].
Proof.
  rewrite !resolve_installable, !ResolverProps.resolve_unresolved.
  unfold read_apps. by rewrite !filter_app, !fmap_app, !filter_app, !fmap_app.
Qed.

End ResolverExtra.

(** ** Further properties of the reading of the input lines *)

Module ReadAppsExtra.
Import Resolver.

Local Abbreviation chars := list_ascii_of_string.
Local Abbreviation blank s := (Forall (λ c, PyStr.isspace c = true) (chars s)).

Lemma lstrip_prefix (s : string) :
  ∃ p, s = p +:+ PyStr.lstrip s ∧ blank p.
Proof.
  induction s as [|c s (p & Hs & Hp)]; simpl.
  { exists "". by split; [|constructor]. }
  destruct (PyStr.isspace c) eqn:Hc.
  - exists (String c p). split; [|by constructor].
    change (String c s = String c (p +:+ PyStr.lstrip s)). by rewrite <- Hs.
  - exists "". by split; [|constructor].
Qed.

Lemma rstrip_suffix (t : string) :
  ∃ q, t = PyStr.rstrip t +:+ q ∧ blank q.
Proof.
  induction t as [|c t (q & Ht & Hq)]; simpl.
  { exists "". by split; [|constructor]. }
  destruct (PyStr.rstrip t) as [|d r] eqn:Hr.
  - simpl in Ht. subst t. destruct (PyStr.isspace c) eqn:Hc.
    + exists (String c q). by split; [|constructor].
    + exists q. by split.
  - exists q. split; [|done].
    change (String c t = String c (String d r +:+ q)). by rewrite <- Ht.
Qed.

Lemma rstrip_last (t : string) (c : ascii) :
  last (chars (PyStr.rstrip t)) = Some c → PyStr.isspace c = false.
Proof.
  induction t as [|c0 t IH]; [done|]. cbn [PyStr.rstrip].
  destruct (PyStr.rstrip t) as [|d r] eqn:Hr.
  - destruct (PyStr.isspace c0) eqn:Hc; [done|]. cbn. by intros [= <-].
  - change (chars (String c0 (String d r))) with (c0 :: d :: chars r).
    rewrite last_cons_cons. exact IH.
Qed.

Lemma strip_head (s : string) (c : ascii) :
  head (chars (PyStr.strip s)) = Some c → PyStr.isspace c = false.
Proof.
  unfold PyStr.strip.
  pose proof (PyStrFacts.rstrip_head (PyStr.lstrip s) (PyStrFacts.lstrip_head s)) as H.
  destruct (PyStr.rstrip (PyStr.lstrip s)); simpl; [done|]. by intros [= <-].
Qed.

(** Every name that is read is a line of the file without the whitespace
    at its two ends: it is not empty, it neither starts nor ends with a
    whitespace character, and the line is the name between two runs of
    whitespace. Whitespace inside a name is kept. *)
Theorem read_apps_names (lines : list string) :
  Forall (λ app,
            app ≠ ""
            ∧ (∀ c, head (chars app) = Some c ∨ last (chars app) = Some c →
                    PyStr.isspace c = false)
            ∧ ∃ line p q, line ∈ lines ∧ line = p +:+ app +:+ q
                          ∧ blank p ∧ blank q)
    (read_apps lines).
Proof.
  unfold read_apps. apply Forall_fmap, Forall_forall. intros line Hline.
  apply list_elem_of_filter in Hline as [Hne Hline]. simpl.
  split; [|split].
  - intros He. by rewrite He in Hne.
  - intros c [Hc|Hc]; [by eapply strip_head | by eapply rstrip_last].
  - destruct (lstrip_prefix line) as (p & Hp & Hbp).
    destruct (rstrip_suffix (PyStr.lstrip line)) as (q & Hq & Hbq).
    exists line, p, q. split; [done|]. split; [|done].
    unfold PyStr.strip. by rewrite <- Hq.
Qed.

(** A line that holds nothing but whitespace is skipped: the file with
    such a line in it gives the names that the file without it gives. *)
Theorem read_apps_skips_blank (lines1 lines2 : list string) (line : string) :
  blank line →
  read_apps (lines1 ++ line :: lines2) = read_apps (lines1 ++ lines2).
Proof.
  intros Hblank.
  assert (∀ l1 l2, read_apps (l1 ++ l2) = read_apps l1 ++ read_apps l2) as Happ.
  { intros l1 l2. unfold read_apps. by rewrite filter_app, fmap_app. }
  rewrite !Happ. f_equal.
  assert (PyStr.lstrip line = "") as Hl.
  { clear Happ. induction line as [|c line IH]; [done|].
    apply Forall_cons in Hblank as [Hc Hblank]. simpl. rewrite Hc. auto. }
  unfold read_apps. rewrite filter_cons_False; [done|].
  unfold PyStr.strip. rewrite Hl. simpl. tauto.
Qed.

Lemma read_apps_skips_blank_witness :
  blank (String (ascii_of_N 9) (String (ascii_of_N 10) ""))
  ∧ read_apps (["Zoom"] ++ String (ascii_of_N 9) (String (ascii_of_N 10) "") :: ["VLC"])
    = read_apps (["Zoom"] ++ ["VLC"]).
Proof.
  assert (blank (String (ascii_of_N 9) (String (ascii_of_N 10) ""))) as Hblank
    by (repeat constructor).
  split; [exact Hblank|].
  apply (read_apps_skips_blank ["Zoom"] ["VLC"] _ Hblank).
Defined.

End ReadAppsExtra.

(** ** Further facts about [sorted] *)

Module PyListMore.
Import PyList.

Section Sorted.
Context {A : Type} (key : A → string).

Lemma sorted_idempotent (l : list A) : sorted key (sorted key l) = sorted key l.
Proof.
  apply (PyListFacts.stable_sort_unique key).
  - apply PyListFacts.sorted_sorted.
  - apply PyListFacts.sorted_sorted.
  - intros k. apply PyListFacts.sorted_stable.
Qed.

Lemma filter_key_short (k : string) (l : list A) :
  NoDup (key <$> l) → (length (filter (λ y, key y = k) l) ≤ 1)%nat.
Proof.
  induction l as [|x l IH]; [simpl; lia|].
  rewrite fmap_cons, NoDup_cons. intros [Hx Hl].
  rewrite filter_cons. case_decide as Hk; [|auto].
  rewrite (PyListFacts.filter_none (λ y, key y = k) l); [simpl; lia|].
  apply Forall_forall. intros y Hy Hky. apply Hx.
  rewrite Hk, <- Hky. by apply list_elem_of_fmap_2.
Qed.

(** With pairwise distinct keys the result does not depend on the order
    of the input. *)
Lemma sorted_distinct_perm (l l' : list A) :
  l ≡ₚ l' → NoDup (key <$> l) → sorted key l = sorted key l'.
Proof.
  intros Hperm Hnodup. apply (PyListFacts.stable_sort_unique key).
  - apply PyListFacts.sorted_sorted.
  - apply PyListFacts.sorted_sorted.
  - intros k. rewrite !PyListFacts.sorted_stable.
    pose proof (filter_key_short k l Hnodup) as Hlen.
    assert (filter (λ y, key y = k) l ≡ₚ filter (λ y, key y = k) l') as Hf
      by (by rewrite Hperm).
    destruct (filter (λ y, key y = k) l) as [|x [|y t]]; simpl in Hlen.
    + symmetry. by apply Permutation_nil.
    + symmetry. by apply Permutation_length_1_inv.
    + lia.
Qed.
End Sorted.

End PyListMore.

(** ** Further properties of enrich.py *)

Module EnrichExtra.
Import Enrich.

(** *** Helpers *)

(** The enriched record depends on the record only through its fields
    other than the two that are written. *)
Lemma enrich_item_ext (item item' : record) :
  (∀ k, k ≠ "official_download_url" → k ≠ "confidence" → item !! k = item' !! k) →
  enrich_item item = enrich_item item'.
Proof.
  intros Hext. apply map_eq. intros k.
  assert (PyDict.get item "normalized" "" = PyDict.get item' "normalized" "") as Hn.
  { unfold PyDict.get. by rewrite Hext. }
  destruct (decide (k = "confidence")) as [->|Hc].
  { by rewrite !EnrichProps.enrich_item_confidence, Hn. }
  destruct (decide (k = "official_download_url")) as [->|Hu].
  { by rewrite !EnrichProps.enrich_item_url, Hn. }
  rewrite !EnrichProps.enrich_item_other by done. by apply Hext.
Qed.

Lemma enrich_item_idempotent (item : record) :
  enrich_item (enrich_item item) = enrich_item item.
Proof. apply enrich_item_ext. intros k. apply EnrichProps.enrich_item_other. Qed.

(** The list the Enricher works on. *)
Local Abbreviation entries resolved :=
  (match resolved with
   | Some data => PyDict.get (data : document) "unresolved" []
   | None => []
   end).

Lemma main_doc (resolved : option document) :
  main resolved =
  {["unresolved" := enrich_item <$> PyList.sorted sort_key (entries resolved)]}.
Proof.
  unfold main. f_equal.
  rewrite <- (PyListFacts.sorted_fmap sort_key sort_key enrich_item)
    by apply EnrichProps.sort_key_enrich_item.
  by destruct resolved.
Qed.

Lemma main_entries (resolved : option document) :
  PyDict.get (main resolved) "unresolved" [] =
  enrich_item <$> PyList.sorted sort_key (entries resolved).
Proof. rewrite main_doc. unfold PyDict.get. by rewrite lookup_singleton_eq. Qed.


(** *** The output *)

(** Running the Enricher on its own output changes nothing. *)
Theorem enrich_idempotent (resolved : option document) :
  main (Some (main resolved)) = main resolved.
Proof.
  rewrite (main_doc (Some (main resolved))), main_entries, main_doc.
  f_equal.
  rewrite (PyListFacts.sorted_fmap sort_key sort_key enrich_item)
    by apply EnrichProps.sort_key_enrich_item.
  rewrite PyListMore.sorted_idempotent, <- list_fmap_compose.
  apply list_fmap_ext. intros _ item _. apply enrich_item_idempotent.
Qed.

(** Values that the input records already hold for [official_download_url]
    and [confidence] have no effect: the output is the one for the records
    without these two fields. *)
Theorem enrich_overwrites_stale (data : document) :
  main (Some data)
  = main (Some (<["unresolved" :=
                    (λ item : record,
                       delete "confidence" (delete "official_download_url" item))
                      <$> PyDict.get data "unresolved" []]> data)).
Proof.
  rewrite !main_doc. f_equal. unfold PyDict.get at 2.
  rewrite lookup_insert_eq. simpl.
  rewrite (PyListFacts.sorted_fmap sort_key sort_key).
  - rewrite <- list_fmap_compose. apply list_fmap_ext. intros _ item _. simpl.
    apply enrich_item_ext. intros k Hu Hc.
    by rewrite lookup_delete_ne, lookup_delete_ne.
  - intros item. unfold sort_key, PyDict.get.
    by rewrite lookup_delete_ne, lookup_delete_ne.
Qed.

(** When the [app] keys of the input records are pairwise distinct, the
    output does not depend on the order of the input: two documents whose
    [unresolved] lists are permutations of each other give the same
    output. *)
Theorem enrich_order_independent (data data' : document) :
  PyDict.get data "unresolved" [] ≡ₚ PyDict.get data' "unresolved" [] →
  NoDup (sort_key <$> PyDict.get data "unresolved" []) →
  main (Some data) = main (Some data').
Proof.
  intros Hperm Hnodup. rewrite !main_doc. do 2 f_equal.
  by apply PyListMore.sorted_distinct_perm.
Qed.

Lemma enrich_order_independent_witness :
  PyDict.get (Samples.handoff [Samples.zoom; Samples.airtable]) "unresolved" []
    ≡ₚ PyDict.get (Samples.handoff [Samples.airtable; Samples.zoom]) "unresolved" []
  ∧ NoDup (sort_key
             <$> PyDict.get (Samples.handoff [Samples.zoom; Samples.airtable])
                   "unresolved" [])
  ∧ main (Some (Samples.handoff [Samples.zoom; Samples.airtable]))
    = main (Some (Samples.handoff [Samples.airtable; Samples.zoom])).
Proof.
  assert (PyDict.get (Samples.handoff [Samples.zoom; Samples.airtable]) "unresolved" []
            ≡ₚ PyDict.get (Samples.handoff [Samples.airtable; Samples.zoom])
                 "unresolved" []) as Hperm
    by (apply (perm_swap Samples.airtable Samples.zoom [])).
  assert (NoDup (sort_key
                   <$> PyDict.get (Samples.handoff [Samples.zoom; Samples.airtable])
                         "unresolved" [])) as Hnodup
    by (apply (bool_decide_unpack _); vm_compute; exact I).
  split; [exact Hperm|]. split; [exact Hnodup|].
  exact (enrich_order_independent
           (Samples.handoff [Samples.zoom; Samples.airtable])
           (Samples.handoff [Samples.airtable; Samples.zoom]) Hperm Hnodup).
Defined.


End EnrichExtra.

(** ** The two stages in a row *)

Module PipelineExtra.

Lemma enrich_unresolved_record (app : string) :
  let r := Enrich.enrich_item
             (Resolver.unresolved_record app (Resolver.normalize_name app)) in
  r !! "app" = Some app
  ∧ r !! "normalized" = Some (Resolver.normalize_name app)
  ∧ r !! "official_download_url"
    = Some (default "Not found"
              (Enrich.VENDOR_MAP !! PyStr.lower (Resolver.normalize_name app)))
  ∧ r !! "confidence"
    = Some (match Enrich.VENDOR_MAP !! PyStr.lower (Resolver.normalize_name app) with
            | Some _ => "high"
            | None => "low"
            end)
  ∧ dom r = ({["app"; "normalized"; "official_download_url"; "confidence"]}
             : gset string).
Proof.
  intros r. unfold r.
  rewrite EnrichProps.enrich_item_url, EnrichProps.enrich_item_confidence.
  rewrite !EnrichProps.enrich_item_other by done.
  rewrite EnrichProps.enrich_item_dom.
  unfold PyDict.get, Resolver.unresolved_record.
  rewrite lookup_insert_eq, lookup_insert_ne, lookup_singleton_eq by done.
  simpl.
  rewrite dom_insert_L, dom_singleton_L.
  by repeat split.
Qed.

(** The Enricher run on the document of the Resolver: its output holds
    one record for each app whose normalized name the catalog lacks, in
    the order of the app names. The record has exactly four fields: the
    app, its normalized name, and the URL and confidence that the vendor
    table gives for the lowercased normalized name. An app that was
    resolved has no record. *)
Theorem pipeline_records (brew_available : gset string) (lines : list string) :
  Forall2
    (λ (app : string) (r : record),
       r !! "app" = Some app
       ∧ r !! "normalized" = Some (Resolver.normalize_name app)
       ∧ r !! "official_download_url"
         = Some (default "Not found"
                   (Enrich.VENDOR_MAP
                      !! PyStr.lower (Resolver.normalize_name app)))
       ∧ r !! "confidence"
         = Some (match Enrich.VENDOR_MAP
                         !! PyStr.lower (Resolver.normalize_name app) with
                 | Some _ => "high"
                 | None => "low"
                 end)
       ∧ dom r = ({["app"; "normalized"; "official_download_url"; "confidence"]}
                  : gset string))
    (PyList.sorted (λ app, app)
       (filter (λ app, Resolver.normalize_name app ∉ brew_available)
          (Resolver.read_apps lines)))
    (PyDict.get
       (Enrich.main (Some (Resolver.resolve brew_available (Some lines))))
       "unresolved" []).
Proof.
  rewrite EnrichExtra.main_entries, ResolverProps.resolve_unresolved.
  rewrite (PyListFacts.sorted_fmap (λ app, app) Enrich.sort_key).
  - apply Forall2_fmap_r, Forall2_fmap_r, Forall_Forall2_diag, Forall_forall.
    intros app _. apply enrich_unresolved_record.
  - intros app. unfold Enrich.sort_key, PyDict.get, Resolver.unresolved_record.
    by rewrite lookup_insert_ne, lookup_singleton_eq.
Qed.

(** Every entry of the vendor table can be hit: its key is a name that
    reading and normalizing leave as it is, so an app of that name which
    the catalog lacks comes out with the URL of the entry and confidence
    [high]. *)
Theorem vendor_entries_reachable (brew_available : gset string) (key url : string) :
  Enrich.VENDOR_MAP !! key = Some url → key ∉ brew_available →
  Enrich.main (Some (Resolver.resolve brew_available (Some [key])))
  = {["unresolved" :=
        [ <["confidence" := "high"]>
            (<["official_download_url" := url]>
               (Resolver.unresolved_record key key)) ]]}.
Proof.
  intros Hkey Hcat.
  assert (Resolver.read_apps [key] = [key] ∧ Resolver.normalize_name key = key
          ∧ PyStr.lower key = key) as (Hread & Hnorm & Hlow).
  { revert key url Hkey Hcat. intros key url Hkey _. revert key url Hkey.
    change (map_Forall
              (λ key _, Resolver.read_apps [key] = [key]
                        ∧ Resolver.normalize_name key = key
                        ∧ PyStr.lower key = key) Enrich.VENDOR_MAP).
    apply (bool_decide_unpack _). by vm_compute. }
  rewrite ResolverProps.resolve_some, Hread.
  rewrite filter_cons_True, filter_cons_False, !filter_nil by (rewrite Hnorm; auto).
  cbn [fmap list_fmap]. rewrite Hnorm.
  rewrite EnrichExtra.main_doc. unfold PyDict.get. rewrite lookup_insert_eq.
  unfold id. cbn [default PyList.sorted PyList.insert_by].
  rewrite list_fmap_singleton. do 2 f_equal.
  unfold Enrich.enrich_item, PyDict.get, Resolver.unresolved_record.
  rewrite lookup_insert_eq. cbn [default]. unfold id. by rewrite Hlow, Hkey.
Qed.

Lemma vendor_entries_reachable_witness :
  Enrich.VENDOR_MAP !! "vlc" = Some "https://www.videolan.org"
  ∧ ("vlc" ∉ ({["zoom"]} : gset string))
  ∧ Enrich.main (Some (Resolver.resolve {["zoom"]} (Some ["vlc"])))
    = {["unresolved" :=
          [ <["confidence" := "high"]>
              (<["official_download_url" := "https://www.videolan.org"]>
                 (Resolver.unresolved_record "vlc" "vlc")) ]]}.
Proof.
  assert ("vlc" ∉ ({["zoom"]} : gset string)) as Hcat
    by (apply (bool_decide_unpack _); vm_compute; exact I).
  split; [reflexivity|]. split; [exact Hcat|].
  exact (vendor_entries_reachable {["zoom"]} "vlc" "https://www.videolan.org"
           eq_refl Hcat).
Defined.

End PipelineExtra.

(** ** Facts about strings over all of Unicode *)

Module UnicodeFacts.
Import Unicode.

(** *** The table *)

(** No lower case in the table is itself a code point that [lower]
    changes. *)
Lemma table_targets_all :
  map_Forall (λ _ d, d ≠ 0x3A3%N ∧ d ≠ 0x130%N ∧ LOWER_TABLE !! d = None)
    LOWER_TABLE.
Proof. apply (bool_decide_unpack _). vm_compute. exact I. Qed.

Lemma table_targets (c d : N) :
  LOWER_TABLE !! c = Some d →
  d ≠ 0x3A3%N ∧ d ≠ 0x130%N ∧ LOWER_TABLE !! d = None.
Proof. apply table_targets_all. Qed.

(** A code point that [lower] leaves as it is, wherever it stands. *)
Local Abbreviation kept c := (c ≠ 0x3A3 ∧ to_lower_full c = [c])%N.

Lemma kept_special :
  kept 0x69%N ∧ kept 0x307%N ∧ kept 0x3C2%N ∧ kept 0x3C3%N
  ∧ kept 0x20%N ∧ kept 0x5F%N ∧ kept 0x2D%N.
Proof.
  assert (∀ c, bool_decide (c ≠ 0x3A3%N ∧ to_lower_full c = [c]) = true → kept c)
    as Hb by (intros c; apply bool_decide_eq_true_1).
  repeat apply conj; apply Hb; vm_compute; reflexivity.
Qed.

Lemma to_lower_full_cases (c : N) :
  (c = 0x130%N ∧ to_lower_full c = [0x69; 0x307]%N)
  ∨ (c ≠ 0x130%N ∧ ∃ d, LOWER_TABLE !! c = Some d ∧ to_lower_full c = [d])
  ∨ (c ≠ 0x130%N ∧ LOWER_TABLE !! c = None ∧ to_lower_full c = [c]).
Proof.
  unfold to_lower_full. destruct (N.eqb_spec c 0x130) as [->|Hi]; [by left|].
  right. destruct (LOWER_TABLE !! c) as [d|]; [left | right]; eauto.
Qed.

Lemma kept_of_none (d : N) :
  d ≠ 0x3A3%N → d ≠ 0x130%N → LOWER_TABLE !! d = None → kept d.
Proof.
  intros Hs Hi Hn. split; [exact Hs|].
  destruct (to_lower_full_cases d) as [[He _] | [(_ & d' & Hd & _) | (_ & _ & H)]].
  - by destruct Hi.
  - rewrite Hn in Hd. discriminate Hd.
  - exact H.
Qed.

Lemma to_lower_full_kept (c : N) :
  c ≠ 0x3A3%N → Forall (λ d, kept d) (to_lower_full c).
Proof.
  intros Hc. destruct kept_special as (K69 & K307 & _).
  destruct (to_lower_full_cases c)
    as [[_ ->] | [(Hi & d & Hd & ->) | (Hi & Hn & ->)]].
  - constructor; [exact K69|]. constructor; [exact K307|]. constructor.
  - apply table_targets in Hd as (Hs & Hi' & Hn).
    constructor; [|constructor]. by apply kept_of_none.
  - constructor; [|constructor]. by apply kept_of_none.
Qed.

Lemma to_lower_full_length (c : N) :
  length (to_lower_full c) = if (c =? 0x130)%N then 2 else 1.
Proof.
  destruct (to_lower_full_cases c)
    as [[-> ->] | [(Hi & d & _ & ->) | (Hi & _ & ->)]]; [done| |];
    by destruct (N.eqb_spec c 0x130).
Qed.

Section Lower.
Context (cased case_ignorable : N → bool).

Local Abbreviation lower := (Unicode.lower cased case_ignorable).
Local Abbreviation do_lower := (Unicode.do_lower cased case_ignorable).
Local Abbreviation lower_ucs4 := (Unicode.lower_ucs4 cased case_ignorable).
Local Abbreviation normalize_name := (Unicode.normalize_name cased case_ignorable).

Lemma lower_ucs4_kept (before : list N) (c : N) (after : list N) :
  Forall (λ d, kept d) (lower_ucs4 before c after).
Proof.
  unfold Unicode.lower_ucs4. destruct (N.eqb_spec c 0x3A3) as [->|Hc].
  - destruct kept_special as (_ & _ & K3C2 & K3C3 & _).
    constructor; [|constructor]. unfold handle_capital_sigma.
    repeat match goal with |- context [if ?b then _ else _] => destruct b end;
      assumption.
  - by apply to_lower_full_kept.
Qed.

Lemma do_lower_kept (before s : list N) :
  Forall (λ d, kept d) (do_lower before s).
Proof.
  revert before. induction s as [|c s IH]; intros before; [constructor|].
  cbn [Unicode.do_lower]. apply Forall_app. split; [apply lower_ucs4_kept | apply IH].
Qed.

Lemma do_lower_fixed (before s : list N) :
  Forall (λ c, kept c) s → do_lower before s = s.
Proof.
  intros Hs. revert before.
  induction Hs as [|c s [Hc Hk] _ IH]; intros before; [done|].
  cbn [Unicode.do_lower]. unfold Unicode.lower_ucs4.
  destruct (N.eqb_spec c 0x3A3); [done|]. by rewrite Hk, IH.
Qed.

(** A one-character string is left as it is by [lower] exactly when its
    code point is kept. *)
Lemma lower_single (c : N) : lower [c] = [c] ↔ kept c.
Proof.
  unfold Unicode.lower. cbn [Unicode.do_lower]. rewrite app_nil_r.
  unfold Unicode.lower_ucs4. destruct (N.eqb_spec c 0x3A3) as [->|Hc].
  - split; [intros [= H]; discriminate H | by intros [? _]].
  - split; [by intros ? | by intros [_ ?]].
Qed.

Lemma lower_twice (s : list N) : lower (lower s) = lower s.
Proof. apply do_lower_fixed, do_lower_kept. Qed.

Lemma do_lower_length (before s : list N) :
  length (do_lower before s) = length s + length (filter (λ c, c = 0x130%N) s).
Proof.
  revert before. induction s as [|c s IH]; intros before; [done|].
  cbn [Unicode.do_lower]. rewrite length_app, IH, filter_cons.
  unfold Unicode.lower_ucs4. destruct (N.eqb_spec c 0x3A3) as [->|Hc].
  { rewrite decide_False by done. simpl. lia. }
  rewrite to_lower_full_length. destruct (N.eqb_spec c 0x130) as [->|Hi].
  - rewrite decide_True by done. simpl. lia.
  - rewrite decide_False by done. simpl. lia.
Qed.

(** *** The two replacements *)

(** What the two replacements of [normalize_name] do to one code point. *)
Local Abbreviation hyphenate :=
  (λ c : N, let c' := if (c =? 0x20)%N then 0x2D%N else c in
            if (c' =? 0x5F)%N then 0x2D%N else c').

Lemma normalize_name_hyphenate (s : list N) :
  normalize_name s = hyphenate <$> lower s.
Proof.
  unfold Unicode.normalize_name, Unicode.replace.
  by rewrite <- list_fmap_compose.
Qed.

Lemma hyphenate_cases (c : N) :
  (c ≠ 0x20%N ∧ c ≠ 0x5F%N ∧ hyphenate c = c)
  ∨ ((c = 0x20%N ∨ c = 0x5F%N) ∧ hyphenate c = 0x2D%N).
Proof.
  simpl. destruct (N.eqb_spec c 0x20) as [->|H1]; [by right; split; [left|]|].
  destruct (N.eqb_spec c 0x5F) as [->|H2]; [by right; split; [right|]|].
  by left.
Qed.

Lemma hyphenate_kept_char (c : N) :
  kept c → hyphenate c ≠ 0x20%N ∧ hyphenate c ≠ 0x5F%N ∧ kept (hyphenate c).
Proof.
  intros Hc. destruct kept_special as (_ & _ & _ & _ & _ & _ & K2D).
  destruct (hyphenate_cases c) as [(H1 & H2 & He) | (_ & He)]; rewrite He.
  - done.
  - split; [discriminate|]. split; [discriminate|]. exact K2D.
Qed.

Lemma hyphenate_kept (s : list N) :
  Forall (λ c, kept c) s →
  Forall (λ c, c ≠ 0x20%N ∧ c ≠ 0x5F%N ∧ kept c) (hyphenate <$> s).
Proof.
  intros Hs. apply Forall_fmap. eapply Forall_impl; [exact Hs|].
  intros c Hc. by apply hyphenate_kept_char.
Qed.

Lemma hyphenate_fixed (s : list N) :
  Forall (λ c, c ≠ 0x20%N ∧ c ≠ 0x5F%N) s → hyphenate <$> s = s.
Proof.
  induction 1 as [|c s [H1 H2] _ IH]; [done|].
  rewrite fmap_cons, IH. f_equal.
  destruct (hyphenate_cases c) as [(_ & _ & He) | ([?|?] & _)]; [exact He|done..].
Qed.

Lemma normalize_name_kept (s : list N) :
  Forall (λ c, c ≠ 0x20%N ∧ c ≠ 0x5F%N ∧ kept c) (normalize_name s).
Proof. rewrite normalize_name_hyphenate. apply hyphenate_kept, do_lower_kept. Qed.

Lemma normalize_name_fixed (s : list N) :
  Forall (λ c, c ≠ 0x20%N ∧ c ≠ 0x5F%N ∧ kept c) s → normalize_name s = s.
Proof.
  intros Hs. rewrite normalize_name_hyphenate.
  unfold Unicode.lower. rewrite do_lower_fixed.
  - apply hyphenate_fixed. eapply Forall_impl; [exact Hs|]. by intros c (? & ? & _).
  - eapply Forall_impl; [exact Hs|]. by intros c (_ & _ & ?).
Qed.

(** *** Strings of [PyStr] *)

Lemma to_lower_full_latin1 (c : ascii) :
  N_of_ascii c ≠ 0x3A3%N
  ∧ to_lower_full (N_of_ascii c) = [N_of_ascii (PyStr.lower_char c)].
Proof. by destruct c as [[] [] [] [] [] [] [] []]; vm_compute. Qed.

Lemma do_lower_latin1 (before : list N) (s : string) :
  do_lower before (of_string s) = of_string (PyStr.lower s).
Proof.
  revert before. induction s as [|c s IH]; intros before; [done|].
  change (of_string (String c s)) with (N_of_ascii c :: of_string s).
  cbn [Unicode.do_lower]. unfold Unicode.lower_ucs4.
  destruct (to_lower_full_latin1 c) as [Hs ->].
  destruct (N.eqb_spec (N_of_ascii c) 0x3A3); [done|]. by rewrite IH.
Qed.

Lemma replace_latin1 (old new : ascii) (s : string) :
  replace (N_of_ascii old) (N_of_ascii new) (of_string s)
  = of_string (PyStr.replace old new s).
Proof.
  unfold replace, PyStr.replace, of_string.
  induction s as [|c s IH]; [done|]. cbn. rewrite <- IH. f_equal.
  destruct (Ascii.eqb_spec c old) as [->|Hne].
  - by rewrite N.eqb_refl.
  - destruct (N.eqb_spec (N_of_ascii c) (N_of_ascii old)) as [He|]; [|done].
    destruct Hne. by rewrite <- (ascii_N_embedding c), He, ascii_N_embedding.
Qed.

(** On strings of code points U+0000..U+00FF, [normalize_name] is
    [Resolver.normalize_name]. *)
Lemma normalize_name_latin1 (s : string) :
  normalize_name (of_string s) = of_string (Resolver.normalize_name s).
Proof.
  unfold Unicode.normalize_name, Resolver.normalize_name, Unicode.lower.
  rewrite do_lower_latin1.
  change 0x20%N with (N_of_ascii " "). change 0x2D%N with (N_of_ascii "-").
  change 0x5F%N with (N_of_ascii "_").
  by rewrite !replace_latin1.
Qed.

End Lower.

(** The dotted capital I lengthens its name, and the capital sigma
    depends on what stands around it. *)
Example normalize_name_dotted_I :
  Unicode.normalize_name sample_cased sample_case_ignorable
    (0x130 :: of_string "stanbul Kart")%N
  = ([0x69; 0x307] ++ of_string "stanbul-kart")%N.
Proof. by vm_compute. Qed.

Example normalize_name_final_sigma :
  Unicode.normalize_name sample_cased sample_case_ignorable [0x391; 0x3A3]%N
  = [0x3B1; 0x3C2]%N
  ∧ Unicode.normalize_name sample_cased sample_case_ignorable [0x391]%N
    ++ Unicode.normalize_name sample_cased sample_case_ignorable [0x3A3]%N
    = [0x3B1; 0x3C3]%N.
Proof. by vm_compute. Qed.

End UnicodeFacts.

(** ** Properties of [normalize_name] on all strings *)

Module UnicodeProps.
Import Unicode.

Section Normalize.
Context (cased case_ignorable : N → bool).

Local Abbreviation lower := (Unicode.lower cased case_ignorable).
Local Abbreviation do_lower := (Unicode.do_lower cased case_ignorable).
Local Abbreviation normalize_name := (Unicode.normalize_name cased case_ignorable).
Local Abbreviation normalize_spec := (Unicode.normalize_spec cased case_ignorable).

(** C3: [normalize_name] is a function of the name alone, defined on
    every string of code points; it is the derivation the specification
    words (lowercase, then spaces and underscores to hyphens); applying it
    twice gives what applying it once gives; and on the strings of code
    points below U+0100 it is the [normalize_name] of the Resolver's
    model. This holds whatever the properties Cased and Case_Ignorable
    are. *)
Theorem normalize_name_idempotent (A : list N) :
  normalize_name A = normalize_spec A
  ∧ normalize_name (normalize_name A) = normalize_name A
  ∧ ∀ s : string,
      normalize_name (of_string s) = of_string (Resolver.normalize_name s).
Proof.
  split; [|split].
  - rewrite UnicodeFacts.normalize_name_hyphenate. unfold Unicode.normalize_spec.
    apply list_fmap_ext. intros _ c _.
    destruct (UnicodeFacts.hyphenate_cases c) as [(H1 & H2 & He) | (Hc & He)];
      cbv beta zeta in He |- *; rewrite He.
    + rewrite bool_decide_eq_false_2; [done|]. by intros [?|?].
    + by rewrite bool_decide_eq_true_2.
  - apply UnicodeFacts.normalize_name_fixed, UnicodeFacts.normalize_name_kept.
  - apply UnicodeFacts.normalize_name_latin1.
Qed.

(** A normalized name holds no space, no underscore and no code point
    that [lower] would change, so lowercasing it again changes nothing;
    it is as long as the name, plus one for every U+0130 of the name. *)
Theorem normalize_name_alphabet (name : list N) :
  Forall (λ c, c ≠ 0x20%N ∧ c ≠ 0x5F%N ∧ lower [c] = [c]) (normalize_name name)
  ∧ lower (normalize_name name) = normalize_name name
  ∧ length (normalize_name name)
    = length name + length (filter (λ c, c = 0x130%N) name).
Proof.
  pose proof (UnicodeFacts.normalize_name_kept cased case_ignorable name) as Hk.
  split; [|split].
  - eapply Forall_impl; [exact Hk|]. intros c (H1 & H2 & H3).
    split; [done|]. split; [done|]. by apply UnicodeFacts.lower_single.
  - apply UnicodeFacts.do_lower_fixed.
    eapply Forall_impl; [exact Hk|]. by intros c (_ & _ & ?).
  - rewrite UnicodeFacts.normalize_name_hyphenate, length_fmap.
    apply UnicodeFacts.do_lower_length.
Qed.

(** The names that [normalize_name] leaves as they are are exactly those
    without a space, an underscore or a code point that [lower] would
    change. *)
Theorem normalize_name_fixed_points (name : list N) :
  normalize_name name = name
  ↔ Forall (λ c, c ≠ 0x20%N ∧ c ≠ 0x5F%N ∧ lower [c] = [c]) name.
Proof.
  split.
  - intros <-. eapply Forall_impl;
      [apply (UnicodeFacts.normalize_name_kept cased case_ignorable)|].
    intros c (H1 & H2 & H3).
    split; [done|]. split; [done|]. by apply UnicodeFacts.lower_single.
  - intros Hn. apply UnicodeFacts.normalize_name_fixed.
    eapply Forall_impl; [exact Hn|]. intros c (H1 & H2 & H3).
    split; [done|]. split; [done|]. by apply UnicodeFacts.lower_single in H3.
Qed.

(** *** Separators *)

(** A space, an underscore or a hyphen. *)
Local Abbreviation is_sep c := (c = 0x20 ∨ c = 0x5F ∨ c = 0x2D)%N.

(** The same code point, or two separators. *)
Local Abbreviation sep_eq := (λ c c' : N, c = c' ∨ (is_sep c ∧ is_sep c')).

Section Separators.
Hypothesis Hsep : ∀ c, is_sep c → cased c = false ∧ case_ignorable c = false.

Lemma skip_ignorable_sep (s s' : list N) :
  Forall2 sep_eq s s' →
  match skip_ignorable case_ignorable s, skip_ignorable case_ignorable s' with
  | Some c, Some c' => sep_eq c c'
  | None, None => True
  | _, _ => False
  end.
Proof.
  induction 1 as [|c c' s s' Hc _ IH]; [done|]. cbn [skip_ignorable].
  destruct Hc as [<- | [Hc Hc']].
  - destruct (case_ignorable c); [exact IH | by left].
  - destruct (Hsep c Hc) as [_ ->]. destruct (Hsep c' Hc') as [_ ->].
    by right.
Qed.

Lemma cased_sep (c c' : N) : sep_eq c c' → cased c = cased c'.
Proof.
  intros [<- | [Hc Hc']]; [done|].
  destruct (Hsep c Hc) as [-> _]. by destruct (Hsep c' Hc') as [-> _].
Qed.

Lemma handle_capital_sigma_sep (b b' a a' : list N) :
  Forall2 sep_eq b b' → Forall2 sep_eq a a' →
  handle_capital_sigma cased case_ignorable b a
  = handle_capital_sigma cased case_ignorable b' a'.
Proof.
  intros Hb Ha. unfold handle_capital_sigma.
  pose proof (skip_ignorable_sep b b' Hb) as Hsb.
  pose proof (skip_ignorable_sep a a' Ha) as Hsa.
  destruct (skip_ignorable case_ignorable b) as [x|],
    (skip_ignorable case_ignorable b') as [x'|]; try done.
  rewrite (cased_sep x x' Hsb).
  destruct (skip_ignorable case_ignorable a) as [y|],
    (skip_ignorable case_ignorable a') as [y'|]; try done.
  by rewrite (cased_sep y y' Hsa).
Qed.

Lemma lower_ucs4_sep (b b' : list N) (c c' : N) (a a' : list N) :
  Forall2 sep_eq b b' → sep_eq c c' → Forall2 sep_eq a a' →
  Forall2 sep_eq (lower_ucs4 cased case_ignorable b c a)
    (lower_ucs4 cased case_ignorable b' c' a').
Proof.
  intros Hb Hc Ha. unfold lower_ucs4. destruct Hc as [<- | [Hc Hc']].
  - destruct (c =? 0x3A3)%N.
    + rewrite (handle_capital_sigma_sep b b' a a' Hb Ha).
      constructor; [by left | constructor].
    + apply Forall_Forall2_diag, Forall_forall. intros d _. by left.
  - destruct UnicodeFacts.kept_special as (_ & _ & _ & _ & K20 & K5F & K2D).
    assert (∀ d, is_sep d → (d =? 0x3A3)%N = false ∧ to_lower_full d = [d])
      as Hk.
    { intros d [-> | [-> | ->]]; (split; [reflexivity|]);
        [apply K20 | apply K5F | apply K2D]. }
    destruct (Hk c Hc) as [-> ->]. destruct (Hk c' Hc') as [-> ->].
    constructor; [by right | constructor].
Qed.

Lemma do_lower_sep (b b' s s' : list N) :
  Forall2 sep_eq b b' → Forall2 sep_eq s s' →
  Forall2 sep_eq (do_lower b s) (do_lower b' s').
Proof.
  intros Hb Hs. revert b b' Hb.
  induction Hs as [|c c' s s' Hc Hs IH]; intros b b' Hb; [constructor|].
  cbn [Unicode.do_lower]. apply Forall2_app.
  - by apply lower_ucs4_sep.
  - apply IH. by constructor.
Qed.

Lemma normalize_name_sep (A B : list N) :
  Forall2 sep_eq A B → normalize_name A = normalize_name B.
Proof.
  intros HAB. rewrite !UnicodeFacts.normalize_name_hyphenate.
  assert (Forall2 sep_eq (lower A) (lower B)) as Hl
    by (apply do_lower_sep; [constructor | exact HAB]).
  induction Hl as [|c c' l l' Hc _ IH]; [done|].
  rewrite !fmap_cons, IH. f_equal.
  destruct Hc as [<- | [[-> | [-> | ->]] [-> | [-> | ->]]]]; reflexivity.
Qed.
End Separators.

(** Names that differ only in letter case, or in which of space,
    underscore and hyphen stands at a place, have the same normalized
    name. The second needs that the three separators are neither cased
    nor case-ignorable, as they are in Unicode. *)
Theorem normalize_name_variants (A B : list N) :
  (∀ c, c = 0x20%N ∨ c = 0x5F%N ∨ c = 0x2D%N →
        cased c = false ∧ case_ignorable c = false) →
  Forall2 (λ c c', c = c'
                   ∨ ((c = 0x20%N ∨ c = 0x5F%N ∨ c = 0x2D%N)
                      ∧ (c' = 0x20%N ∨ c' = 0x5F%N ∨ c' = 0x2D%N))) A B →
  normalize_name (lower A) = normalize_name A
  ∧ normalize_name A = normalize_name B.
Proof.
  intros Hsep HAB. split.
  - unfold Unicode.normalize_name. by rewrite UnicodeFacts.lower_twice.
  - by apply normalize_name_sep.
Qed.

(** *** Concatenation *)

Lemma do_lower_no_sigma (before s : list N) :
  0x3A3%N ∉ s → do_lower before s = s ≫= to_lower_full.
Proof.
  revert before. induction s as [|c s IH]; intros before Hs; [done|].
  apply not_elem_of_cons in Hs as [Hc Hs].
  cbn [Unicode.do_lower]. unfold lower_ucs4.
  destruct (N.eqb_spec 0x3A3 c) as [He|_]; [by destruct Hc|].
  rewrite N.eqb_sym. destruct (N.eqb_spec 0x3A3 c) as [He|_]; [by destruct Hc|].
  by rewrite (IH _ Hs).
Qed.

(** Without a capital sigma U+03A3 in them, names are normalized piece by
    piece: the normalized name of a concatenation is the concatenation of
    the normalized names. (With one, the sigma at the end of the first
    piece may or may not be final, see [normalize_name_final_sigma].) *)
Theorem normalize_name_app (A B : list N) :
  0x3A3%N ∉ A → 0x3A3%N ∉ B →
  normalize_name (A ++ B) = normalize_name A ++ normalize_name B.
Proof.
  intros HA HB. rewrite !UnicodeFacts.normalize_name_hyphenate.
  unfold Unicode.lower. rewrite !do_lower_no_sigma.
  - by rewrite bind_app, fmap_app.
  - exact HB.
  - exact HA.
  - intros Hin. apply elem_of_app in Hin as [?|?]; done.
Qed.

End Normalize.

Lemma normalize_name_app_witness :
  (0x3A3%N ∉ of_string "Visual ") ∧ (0x3A3%N ∉ of_string "Studio_Code")
  ∧ Unicode.normalize_name sample_cased sample_case_ignorable
      (of_string "Visual " ++ of_string "Studio_Code")
    = Unicode.normalize_name sample_cased sample_case_ignorable (of_string "Visual ")
      ++ Unicode.normalize_name sample_cased sample_case_ignorable
           (of_string "Studio_Code").
Proof.
  assert (0x3A3%N ∉ of_string "Visual ") as HA
    by (apply (bool_decide_unpack _); vm_compute; exact I).
  assert (0x3A3%N ∉ of_string "Studio_Code") as HB
    by (apply (bool_decide_unpack _); vm_compute; exact I).
  split; [exact HA|]. split; [exact HB|].
  exact (normalize_name_app sample_cased sample_case_ignorable
           (of_string "Visual ") (of_string "Studio_Code") HA HB).
Defined.

Lemma normalize_name_variants_witness :
  (∀ c, c = 0x20%N ∨ c = 0x5F%N ∨ c = 0x2D%N →
        sample_cased c = false ∧ sample_case_ignorable c = false)
  ∧ Unicode.normalize_name sample_cased sample_case_ignorable
      (of_string "My App-Store")
    = Unicode.normalize_name sample_cased sample_case_ignorable
        (of_string "My_App Store").
Proof.
  assert (∀ c, c = 0x20%N ∨ c = 0x5F%N ∨ c = 0x2D%N →
               sample_cased c = false ∧ sample_case_ignorable c = false) as Hsep
    by (intros c [-> | [-> | ->]]; split; reflexivity).
  split; [exact Hsep|].
  apply (normalize_name_variants sample_cased sample_case_ignorable
           (of_string "My App-Store") (of_string "My_App Store") Hsep).
  repeat (constructor; [auto 8|]). constructor.
Defined.

End UnicodeProps.
